(** * translation-server: outbound HTTP requests and the web endpoint

    A shallow embedding of [src/http.js] (the [Zotero.HTTP] namespace:
    [request], [processDocuments]) and of the web endpoint that follows it
    in the same source file ([WebEndpoint.handle] and [gc]), with the
    properties of the specification stated over them.

    JavaScript values are modelled by the Rocq types closest to them:
    numbers that are status codes, lengths, counters and millisecond
    timestamps are [Z]; strings are [string]; the object used as a map from
    session id to session is a [gmap string Session] for its own
    properties, read through the prototype chain as JavaScript reads it.
    Exceptions and promise rejections are an error result; mutable state
    and the trace of effects are threaded explicitly. *)

From Stdlib Require Import ZArith Lia Bool Ascii String List.
From stdpp Require Import base option gmap strings list pretty.

Open Scope Z_scope.

(** ** Computations that read and write a state and may fail *)

Inductive result (E A : Type) : Type :=
| Ok (a : A)
| Err (e : E).
Arguments Ok {E A} a.
Arguments Err {E A} e.

Definition M (S E A : Type) : Type := S -> S * result E A.

Definition ret {S E A} (a : A) : M S E A := fun s => (s, Ok a).

Definition bind {S E A B} (m : M S E A) (k : A -> M S E B) : M S E B :=
  fun s => match m s with
           | (s', Ok a) => k a s'
           | (s', Err e) => (s', Err e)
           end.

Definition throw {S E A} (e : E) : M S E A := fun s => (s, Err e).

Definition gets {S E A} (f : S -> A) : M S E A := fun s => (s, Ok (f s)).

Definition modify {S E} (f : S -> S) : M S E unit := fun s => (f s, Ok tt).

(** [when c m]: the statement [if (c) m]. *)
Definition when {S E} (c : bool) (m : M S E unit) : M S E unit :=
  if c then m else ret tt.

Notation "'let*' x ':=' m 'in' k" := (bind m (fun x => k))
  (at level 10, x name, m at level 100, k at level 200).
Notation "'do' m 'in' k" := (bind m (fun _ => k))
  (at level 10, m at level 100, k at level 200).

(** ** Strings *)

Definition newline : string := String (ascii_of_nat 10) EmptyString.

(** [contains needle hay]: [needle] occurs in [hay] as a substring. *)
Fixpoint contains (needle hay : string) : bool :=
  String.prefix needle hay ||
  match hay with
  | EmptyString => false
  | String _ rest => contains needle rest
  end.

(** [s.substr(0, n)]: the first [n] characters, none when [n] is not
    positive. *)
Definition substr0 (n : Z) (s : string) : string :=
  String.substring 0 (Z.to_nat n) s.

(** *** Conversion of a string to a number

    A relational comparison between a string and a number converts the
    string with ToNumber. White space around the text is ignored, the empty
    text is zero, and an optionally signed run of decimal digits is that
    integer. Every other text is [NaN] here; literals with a fraction, an
    exponent or a radix prefix and [Infinity] are not represented. *)
Inductive Number :=
| NaN
| Num (z : Z).

Definition is_space (c : ascii) : bool :=
  let n := nat_of_ascii c in
  bool_decide (n ∈ [9; 10; 11; 12; 13; 32]%nat).

Definition digit (c : ascii) : option Z :=
  let n := Z.of_nat (nat_of_ascii c) in
  if (48 <=? n) && (n <=? 57) then Some (n - 48) else None.

Fixpoint all_space (s : string) : bool :=
  match s with
  | EmptyString => true
  | String c rest => is_space c && all_space rest
  end.

Fixpoint trim_left (s : string) : string :=
  match s with
  | EmptyString => EmptyString
  | String c rest => if is_space c then trim_left rest else s
  end.

Fixpoint digits (acc : Z) (s : string) : Number :=
  match s with
  | EmptyString => Num acc
  | String c rest =>
      match digit c with
      | Some d => digits (acc * 10 + d) rest
      | None => if all_space s then Num acc else NaN
      end
  end.

Definition unsigned (s : string) : Number :=
  match s with
  | EmptyString => NaN
  | String c rest =>
      match digit c with
      | Some d => digits d rest
      | None => NaN
      end
  end.

Definition negate (n : Number) : Number :=
  match n with
  | NaN => NaN
  | Num z => Num (- z)
  end.

Definition ToNumber (s : string) : Number :=
  match trim_left s with
  | EmptyString => Num 0
  | String c rest =>
      if Ascii.eqb c "-" then negate (unsigned rest)
      else if Ascii.eqb c "+" then unsigned rest
      else unsigned (String c rest)
  end.

(** [s > n] for a string [s] and a number [n]: false when [s] converts to
    [NaN]. *)
Definition string_gt_number (s : string) (n : Z) : bool :=
  match ToNumber s with
  | NaN => false
  | Num z => n <? z
  end.

(** *** Replacement of the first match of a pattern

    [s.replace(/P[^c]+/, R)] for a literal [P], a character [c] and a
    literal [R]: the leftmost place where [P] is followed by at least one
    character other than [c] is replaced, together with the longest run of
    such characters, by [R]. Without the [g] flag only that first match is
    replaced. *)
Fixpoint strip_prefix (p s : string) : option string :=
  match p, s with
  | EmptyString, _ => Some s
  | String a p', String b s' =>
      if Ascii.eqb a b then strip_prefix p' s' else None
  | String _ _, EmptyString => None
  end.

Fixpoint skip_run (c : ascii) (s : string) : string :=
  match s with
  | EmptyString => EmptyString
  | String a rest => if Ascii.eqb a c then s else skip_run c rest
  end.

Fixpoint replace_first (p : string) (c : ascii) (r : string) (s : string)
  : string :=
  match s with
  | EmptyString => EmptyString
  | String a rest =>
      match strip_prefix p s with
      | Some (String b tail) =>
          if Ascii.eqb b c then String a (replace_first p c r rest)
          else r +:+ skip_run c tail
      | _ => String a (replace_first p c r rest)
      end
  end.

Definition quote : ascii := ascii_of_nat 34.

(** The JSON form: the word password, a double quote, a colon and a double
    quote, then the run of characters up to the next double quote; the run
    is replaced by eight asterisks. *)
Definition mask_json_password (s : string) : string :=
  let p := "password" +:+ String quote (":" +:+ String quote EmptyString) in
  replace_first p quote (p +:+ "********") s.

(** The form-encoded form: [password=] and the run of characters up to
    the next ampersand; the run is replaced by eight asterisks. *)
Definition mask_form_password (s : string) : string :=
  replace_first "password=" "&" "password=********" s.

(** The pattern of the JSON form without the run: the word password, a
    double quote, a colon and a double quote. *)
Definition password_key : string :=
  "password" +:+ String quote (":" +:+ String quote EmptyString).

(** * Functions for performing HTTP requests *)

Module HTTP.

(** The errors of the module: the two kinds it declares, the plain [Error]
    it throws, the [ReferenceError] of an unbound identifier, the
    [TypeError] the engine raises while a body is converted (identified by
    the expression that raises it, since the message differs between
    engines), the error object the transport hands to the callback
    (identified by its [code], such as [ETIMEDOUT] or [ECONNREFUSED]), and
    an exception raised by the caller's processor or by the construction
    of a document. *)
Inductive Error :=
| StatusError (url : string) (status : Z) (responseText : string)
| TimeoutError (ms : Z)
| PlainError (message : string)
| ReferenceError (name : string)
| TypeError (expression : string)
| TransportError (code : string)
| Exception (what : string).

(** How a failure reaches the caller: thrown before a promise exists, as
    the rejection of the returned promise, or raised inside the transport's
    callback, where nothing catches it and the promise never settles. *)
Inductive Failure :=
| Thrown (e : Error)
| Rejected (e : Error)
| Uncaught (e : Error).

(** What [JSON.stringify] does with a value: it returns a text, it
    returns [undefined] (for a function, or an object whose [toJSON]
    returns nothing), or it throws a [TypeError] (for a circular structure
    or a BigInt). *)
Inductive Json :=
| JsonText (s : string)
| JsonUndefined
| JsonThrows.

(** A request body that is not null: a string, or another value (a
    number, a boolean, an object, an array, a function), given by what
    [request] observes of it: whether it is truthy (0, NaN and false are
    not, an object, an array or a function is), the text a template
    literal gives for it (its elements joined by commas for an array), and
    what [JSON.stringify] does with it. Values that cannot be converted by
    a template literal (a symbol, an object without [toString]) are not
    represented. *)
Inductive Body :=
| BodyString (s : string)
| BodyValue (truthy : bool) (text : string) (json : Json).

(** [successCodes]: absent or null, the value false, or an array. *)
Inductive SuccessCodes :=
| Unset
| AllowAll
| Codes (codes : list Z).

(** The options a caller passes; [None] for [logBodyLength] and [timeout]
    is an absent property, filled in by the defaults. *)
Record Options := {
  body : option Body;
  headers : gmap string string;
  debug : bool;
  logBodyLength : option Z;
  timeout : option Z;
  responseType : string;
  successCodes : SuccessCodes
}.

(** The argument of the transport ([uri], [method], [headers], [timeout],
    [body]) and what its callback receives (an error, or a response with
    [statusCode], [headers] and [body]). *)
Inductive Call :=
| MkCall (uri method : string) (headers : gmap string string) (timeout : Z)
    (body : option Body).

Inductive Reply :=
| Failed (code : string)
| Responded (statusCode : Z) (headers : gmap string string) (body : string).

(** The object a successful request resolves with. *)
Record Response := {
  responseText : string;
  responseHeaders : gmap string string;
  statusCode : Z
}.

(** What can be observed of a run: lines given to [Zotero.debug], calls of
    the transport, calls of the processor (with the URL of the document),
    and calls of the legacy callbacks. *)
Inductive Event :=
| Debug (line : string)
| Sent (c : Call)
| Processed (url : string)
| OnError (e : Error)
| OnDone.

(** What the identifier [status] denotes where [request] reads it. The
    file declares no variable of that name, so it is looked up among the
    globals: unbound (reading it raises a [ReferenceError]), or bound to a
    value that is a number or something else. *)
Inductive Binding :=
| Unbound
| Bound (v : option Z).

Definition includes (l : list Z) (v : option Z) : bool :=
  match v with
  | Some z => bool_decide (z ∈ l)
  | None => false
  end.

(** The test [if (options.body)]: null and the empty string are falsy, a
    value that is not a string is what it is. *)
Definition body_truthy (b : option Body) : bool :=
  match b with
  | None => false
  | Some (BodyString s) => negb (String.eqb s EmptyString)
  | Some (BodyValue truthy _ _) => truthy
  end.

(** The body converted by a template literal. *)
Definition display (b : Body) : string :=
  match b with
  | BodyString s => s
  | BodyValue _ text _ => text
  end.

(** [typeof body == 'string' ? body : JSON.stringify(body)] *)
Definition stringify (b : Body) : Json :=
  match b with
  | BodyString s => JsonText s
  | BodyValue _ _ json => json
  end.

(** Whether the conversion of the body, where [request] converts it,
    gives a text: only a truthy body is converted. *)
Definition converts (b : option Body) : bool :=
  match b with
  | Some v =>
      if body_truthy b then
        match stringify v with
        | JsonText _ => true
        | _ => false
        end
      else true
  | None => true
  end.

(** [options.body] where the transport is called, or where the conversion
    fails: a truthy body has been replaced by what the conversion
    returned, a falsy one, null included, is as the caller gave it. *)
Definition outgoing (b : option Body) : option Body :=
  match b with
  | Some v =>
      if body_truthy b then
        match stringify v with
        | JsonText s => Some (BodyString s)
        | JsonUndefined => None
        | JsonThrows => Some v
        end
      else Some v
  | None => None
  end.

(** The adjustment of [Content-Type] for a request with a body. *)
Definition content_type (h : gmap string string) : gmap string string :=
  match h !! "Content-Type" with
  | None => <["Content-Type" := "application/x-www-form-urlencoded"]> h
  | Some v =>
      if String.eqb v EmptyString
      then <["Content-Type" := "application/x-www-form-urlencoded"]> h
      else if String.eqb v "multipart/form-data"
      then delete "Content-Type" h
      else h
  end.

(** The text appended to the logged line. The source reads
    [`: ${body.substr(0, n)}` + body.length > n ? '...' : ''], which
    JavaScript parses as [((`: ...` + body.length) > n) ? '...' : '']:
    addition binds tighter than comparison, and comparison tighter than
    the conditional. *)
Definition logBody_of (body : string) (n : Z) : string :=
  let logBody :=
    if string_gt_number
         ((": " +:+ substr0 n body) +:+ pretty (Z.of_nat (String.length body)))
         n
    then "..." else EmptyString in
  let logBody := mask_json_password logBody in
  mask_form_password logBody.

(** A request can be sent when it is not a GET or HEAD request with a
    body, and the conversion of its body, if there is one, gives a text. *)
Definition sendable (method : string) (options : Options) : Prop :=
  (method <> "GET" /\ method <> "HEAD" /\ converts (body options) = true)
  \/ body options = None.

(** *** Observations on a trace *)

(** The lines logged before the first call of the transport. *)
Fixpoint logged_before_send (tr : list Event) : list string :=
  match tr with
  | [] => []
  | Debug line :: rest => line :: logged_before_send rest
  | Sent _ :: _ => []
  | _ :: rest => logged_before_send rest
  end.

(** The URLs requested from the transport, in order. *)
Fixpoint requested (tr : list Event) : list string :=
  match tr with
  | [] => []
  | Sent (MkCall uri _ _ _ _) :: rest => uri :: requested rest
  | _ :: rest => requested rest
  end.

(** The work done on documents, in order: a URL is fetched when the
    transport is called for it and processed when the processor is called
    on its document. [serial urls] is the work of a loader that finishes
    each URL before it starts the next. *)
Inductive Step :=
| Fetch (url : string)
| Process (url : string).

Fixpoint activity (tr : list Event) : list Step :=
  match tr with
  | [] => []
  | Sent (MkCall uri _ _ _ _) :: rest => Fetch uri :: activity rest
  | Processed url :: rest => Process url :: activity rest
  | _ :: rest => activity rest
  end.

Fixpoint serial (urls : list string) : list Step :=
  match urls with
  | [] => []
  | url :: urls => Fetch url :: Process url :: serial urls
  end.

Definition is_TimeoutError (e : Error) : bool :=
  match e with
  | TimeoutError _ => true
  | _ => false
  end.

Definition error_of (f : Failure) : Error :=
  match f with
  | Thrown e => e
  | Rejected e => e
  | Uncaught e => e
  end.

Section Client.

(** The world outside: the transport (the [request] package), the
    configured user agent, and the binding of [status]. *)
Variable World : Type.
Variable transport : Call -> World -> Reply * World.
Variable userAgent : string.
Variable status : Binding.

Record Env := {
  world : World;
  trace : list Event
}.

(** A run that starts with nothing observed yet. *)
Definition fresh (w : World) : Env := {| world := w; trace := [] |}.

Definition emit (e : Event) : M Env Failure unit :=
  modify (fun env => {| world := world env; trace := trace env ++ [e] |}).

Definition Zotero_debug (line : string) : M Env Failure unit :=
  emit (Debug line).

Definition send (c : Call) : M Env Failure Reply :=
  fun env =>
    let (reply, w) := transport c (world env) in
    ({| world := w; trace := trace env ++ [Sent c] |}, Ok reply).

(** The first part of [request]: the default options are filled in, the
    user agent is added to the headers, a body on GET or HEAD is refused,
    and a truthy body is converted to text, given a content type and
    summarised for the log. When [JSON.stringify] throws, its exception
    leaves [request]; when it returns [undefined], the call of [substr] on
    it raises a [TypeError]. The result is [options.body],
    [options.headers] and [logBody] as they stand before the line is
    logged. *)
Definition prepare (method : string) (options : Options)
  : M Env Failure (option Body * gmap string string * string) :=
  let logBodyLength := default 1024 (logBodyLength options) in
  let headers := headers options ∪ {[ "User-Agent" := userAgent ]} in
  if bool_decide (method ∈ ["GET"; "HEAD"]) then
    match body options with
    | Some b =>
        throw (Thrown (PlainError
          ("HTTP " +:+ method +:+ " cannot have a request body ("
           +:+ display b +:+ ")")))
    | None => ret (None, headers, EmptyString)
    end
  else
    match body options with
    | Some b =>
        if body_truthy (Some b) then
          match stringify b with
          | JsonThrows => throw (Thrown (TypeError "JSON.stringify"))
          | JsonUndefined => throw (Thrown (TypeError "options.body.substr"))
          | JsonText body =>
              ret (Some (BodyString body), content_type headers,
                   logBody_of body logBodyLength)
          end
        else ret (Some b, headers, EmptyString)
    | None => ret (None, headers, EmptyString)
    end.

(** The function [request] gives to the transport, called with an error
    or with a response. *)
Definition callback (url : string) (options : Options) (reply : Reply)
  : M Env Failure Response :=
  match reply with
  | Failed code => throw (Rejected (TransportError code))
  | Responded code response_headers response_body =>
      let* success :=
        match successCodes options with
        | Codes codes =>
            (* Array of success codes given *)
            match status with
            | Unbound => throw (Uncaught (ReferenceError "status"))
            | Bound v => ret (includes codes v)
            end
        | AllowAll =>
            (* Explicit FALSE means allow any status code *)
            ret true
        | Unset =>
            (* Otherwise, 2xx is success *)
            ret ((200 <=? code) && (code <? 300))
        end in
      if negb success then
        throw (Rejected (StatusError url code response_body))
      else
        do when (debug options)
             (Zotero_debug ("HTTP " +:+ pretty code +:+ " response: "
                            +:+ response_body)) in
        ret {| responseText := response_body;
               responseHeaders := response_headers;
               statusCode := code |}
  end.

(** [Zotero.HTTP.request]. The result is the settlement of the promise it
    returns. *)
Definition request (method url : string) (options : Options)
  : M Env Failure Response :=
  let timeout := default 15000 (timeout options) in
  let* prepared := prepare method options in
  let '(body, headers, logBody) := prepared in
  do Zotero_debug ("HTTP " +:+ method +:+ " " +:+ url +:+ logBody) in
  let* reply := send (MkCall url method headers timeout body) in
  callback url options reply.

(** *** Loading documents *)

(** The parsed document, the processor's result type, the construction of
    a document from a response text and its URL ([new JSDOM] followed by
    [wgxpath.install]), and the caller's processor. *)
Variable Document : Type.
Variable T : Type.
Variable JSDOM : string -> string -> result Error Document.
Variable processor : Document -> string -> World -> result Error T * World.

(** [urls]: a string or an array of strings. *)
Inductive Urls :=
| One (url : string)
| Many (urls : list string).

(** The old signature, when more than two arguments are passed: whether
    [onDone] and [onError] are given. *)
Record Legacy := {
  onDone : bool;
  onError : bool
}.

(** [processor(dom.window.document, url)], awaited: an exception or a
    rejection of the processor rejects the promise of the element. *)
Definition call_processor (dom : Document) (url : string) : M Env Failure T :=
  fun env =>
    let tr := trace env ++ [Processed url] in
    match processor dom url (world env) with
    | (Ok v, w) => ({| world := w; trace := tr |}, Ok v)
    | (Err e, w) => ({| world := w; trace := tr |}, Err (Rejected e))
    end.

(** [{ responseType: 'document' }] *)
Definition document_options : Options :=
  {| body := None; headers := ∅; debug := false; logBodyLength := None;
     timeout := None; responseType := "document"; successCodes := Unset |}.

(** One element of [funcs]: request the URL, build the document, run the
    processor. *)
Definition func (url : string) : M Env Failure T :=
  let* response := request "GET" url document_options in
  match JSDOM (responseText response) url with
  | Err e => throw (Rejected e)
  | Ok dom => call_processor dom url
  end.

(** [try { ... } catch (e) { ... }]: an exception thrown synchronously and
    the rejection of an awaited promise are caught; a promise that never
    settles is not. *)
Definition try_catch {A} (m : M Env Failure A) (handler : Error -> M Env Failure A)
  : M Env Failure A :=
  fun env =>
    match m env with
    | (env', Err (Thrown e)) => handler e env'
    | (env', Err (Rejected e)) => handler e env'
    | other => other
    end.

(** The loop [while (f = funcs.shift())]: run processes serially. *)
Fixpoint drain (legacy : option Legacy) (funcs : list string) (results : list T)
  : M Env Failure (list T) :=
  match funcs with
  | [] => ret results
  | f :: funcs =>
      let* r :=
        try_catch (func f)
          (fun e =>
             do when (match legacy with
                      | Some l => onError l
                      | None => false
                      end)
                  (emit (OnError e)) in
             throw (Rejected e)) in
      drain legacy funcs (results ++ [r])
  end.

(** Handle old signature: urls, processor, onDone, onError. *)
Definition announce (legacy : option Legacy) : M Env Failure unit :=
  when (bool_decide (is_Some legacy))
    (Zotero_debug
       "Zotero.HTTP.processDocuments() now takes only 2 arguments -- update your code").

(** The environment after the catch block has run for the error [e]: the
    legacy error callback, when there is one, has been called. *)
Definition notified (legacy : option Legacy) (e : Error) (env : Env) : Env :=
  match legacy with
  | Some l =>
      if onError l
      then {| world := world env; trace := trace env ++ [OnError e] |}
      else env
  | None => env
  end.

(** [Zotero.HTTP.processDocuments] *)
Definition processDocuments (urls : Urls) (legacy : option Legacy)
  : M Env Failure (list T) :=
  do announce legacy in
  let urls :=
    match urls with
    | One url => [url]
    | Many urls => urls
    end in
  let* results := drain legacy urls [] in
  do when (match legacy with
           | Some l => onDone l
           | None => false
           end)
       (emit OnDone) in
  ret results.

End Client.

Arguments world {World} _.
Arguments trace {World} _.
Arguments fresh {World} w.

(** The content type after the adjustment, by what it was before. *)
Definition adjusted (before : option string) : option string :=
  match before with
  | None => Some "application/x-www-form-urlencoded"
  | Some v =>
      if String.eqb v EmptyString then Some "application/x-www-form-urlencoded"
      else if String.eqb v "multipart/form-data" then None
      else Some v
  end.

(** *** More observations on a trace *)

(** The calls of the transport, in order. *)
Fixpoint calls (tr : list Event) : list Call :=
  match tr with
  | [] => []
  | Sent c :: rest => c :: calls rest
  | _ :: rest => calls rest
  end.

Definition call_headers (c : Call) : gmap string string :=
  match c with
  | MkCall _ _ h _ _ => h
  end.

(** All logged lines, and those logged after the first call of the
    transport. *)
Fixpoint logged (tr : list Event) : list string :=
  match tr with
  | [] => []
  | Debug line :: rest => line :: logged rest
  | _ :: rest => logged rest
  end.

Fixpoint logged_after_send (tr : list Event) : list string :=
  match tr with
  | [] => []
  | Sent _ :: rest => logged rest
  | _ :: rest => logged_after_send rest
  end.

(** The errors given to the legacy [onError], and the number of calls of
    the legacy [onDone]. *)
Fixpoint reported (tr : list Event) : list Error :=
  match tr with
  | [] => []
  | OnError e :: rest => e :: reported rest
  | _ :: rest => reported rest
  end.

Fixpoint completions (tr : list Event) : nat :=
  match tr with
  | [] => O
  | OnDone :: rest => S (completions rest)
  | _ :: rest => completions rest
  end.

(** *** The deprecated entry points *)

(** What [doGet] and [doPost] call [onDone] with: the response of the
    request, or an object with the [status] and the [responseText] read
    off the error ([None] for a property the error does not have). *)
Inductive Done :=
| DoneResponse (r : Response)
| DoneFailure (status : option Z) (responseText : option string).

(** [e.status] and [e.responseText]: only a [StatusError] has them. *)
Definition status_of (e : Error) : option Z :=
  match e with
  | StatusError _ status _ => Some status
  | _ => None
  end.

Definition responseText_of (e : Error) : option string :=
  match e with
  | StatusError _ _ text => Some text
  | _ => None
  end.

(** What a call of [doGet] or [doPost] comes to: the value it returns (or
    the exception it throws), the calls of [onDone], and the error the
    promise chain is left rejected with, which nothing handles. *)
Record Deprecated := {
  returned : result Error bool;
  onDone_calls : list Done;
  unhandled : option Error
}.

(** Whether the legacy [onError] is given. *)
Definition wants_onError (legacy : option Legacy) : bool :=
  match legacy with
  | Some l => onError l
  | None => false
  end.

(** [doGet] and [doPost] did what their callers rely on: [true] was
    returned and [onDone] was called exactly once, either with a response
    whose status code is from 200 to 299, or with the [status] and the
    [responseText] of the error that the promise chain is left rejected
    with. *)
Definition calls_back_once (d : Deprecated) : Prop :=
  returned d = Ok true
  /\ exists arg,
       onDone_calls d = [arg]
       /\ match arg with
          | DoneResponse r => unhandled d = None /\ 200 <= statusCode r < 300
          | DoneFailure st text =>
              exists e,
                unhandled d = Some e /\ st = status_of e
                /\ text = responseText_of e
          end.

Section DeprecatedCalls.

Variable World : Type.
Variable transport : Call -> World -> Reply * World.
Variable userAgent : string.
Variable status : Binding.

(** The common shape of the two functions: the notice is logged, the
    request is made, [onDone] is attached to both outcomes of the promise
    (the rejection handler throws the error again), and [true] is
    returned. *)
Definition deprecated (notice method url : string) (options : Options)
  (env : Env World) : Env World * Deprecated :=
  let env0 := (Zotero_debug World notice env).1 in
  match request World transport userAgent status method url options env0 with
  | (env1, Ok r) =>
      (env1, {| returned := Ok true; onDone_calls := [DoneResponse r];
                unhandled := None |})
  | (env1, Err (Rejected e)) =>
      (env1, {| returned := Ok true;
                onDone_calls := [DoneFailure (status_of e) (responseText_of e)];
                unhandled := Some e |})
  | (env1, Err (Thrown e)) =>
      (env1, {| returned := Err e; onDone_calls := []; unhandled := None |})
  | (env1, Err (Uncaught e)) =>
      (env1, {| returned := Ok true; onDone_calls := []; unhandled := None |})
  end.

(** [Zotero.HTTP.doGet(url, onDone, responseCharset, cookieSandbox, headers)]:
    [headers] may be left out. *)
Definition doGet (url : string) (headers : option (gmap string string))
  : Env World -> Env World * Deprecated :=
  deprecated "Zotero.HTTP.doGet is deprecated. Use Zotero.HTTP.request"
    "GET" url
    {| body := None; headers := default ∅ headers; debug := false;
       logBodyLength := None; timeout := None; responseType := EmptyString;
       successCodes := Unset |}.

(** [Zotero.HTTP.doPost(url, body, onDone, headers, responseCharset)] *)
Definition doPost (url : string) (body : option Body)
  (headers : option (gmap string string))
  : Env World -> Env World * Deprecated :=
  deprecated "Zotero.HTTP.doPost is deprecated. Use Zotero.HTTP.request"
    "POST" url
    {| body := body; headers := default ∅ headers; debug := false;
       logBodyLength := None; timeout := None; responseType := EmptyString;
       successCodes := Unset |}.

End DeprecatedCalls.

(** *** Sample worlds

    Transports over a world without state: one that answers every call
    with the same response, one that reports the same error for every
    call, and one that cannot connect to a single host and answers every
    other call with a page. Documents are their source text and the sample
    processor measures it. *)
Module Samples.

Definition answering (code : Z) (text : string)
  : Call -> unit -> Reply * unit :=
  fun _ w => (Responded code ∅ text, w).

Definition failing (code : string) : Call -> unit -> Reply * unit :=
  fun _ w => (Failed code, w).

Definition unreachable (host : string) : Call -> unit -> Reply * unit :=
  fun c w =>
    match c with
    | MkCall uri _ _ _ _ =>
        if String.eqb uri host then (Failed "ECONNREFUSED", w)
        else (Responded 200 ∅ "<html></html>", w)
    end.

(** A transport that answers every call with a page that holds the URL
    it was called for. *)
Definition echo : Call -> unit -> Reply * unit :=
  fun c w =>
    match c with
    | MkCall uri _ _ _ _ => (Responded 200 ∅ uri, w)
    end.

Definition source_text (text url : string) : result Error string := Ok text.

Definition measure (dom url : string) (w : unit) : result Error nat * unit :=
  (Ok (String.length dom), w).

Definition with_codes (codes : SuccessCodes) : Options :=
  {| body := None; headers := ∅; debug := false; logBodyLength := None;
     timeout := None; responseType := EmptyString; successCodes := codes |}.

Definition with_body (b : Body) : Options :=
  {| body := Some b; headers := ∅; debug := false; logBodyLength := None;
     timeout := None; responseType := EmptyString; successCodes := Unset |}.

Definition with_timeout (ms : Z) : Options :=
  {| body := None; headers := ∅; debug := false; logBodyLength := None;
     timeout := Some ms; responseType := EmptyString; successCodes := Unset |}.

(** Bodies that are not strings: an object without properties, the
    number zero, an object that refers to itself, and a function. *)
Definition empty_object : Body :=
  BodyValue true "[object Object]" (JsonText "{}").
Definition zero : Body := BodyValue false "0" (JsonText "0").
Definition circular : Body := BodyValue true "[object Object]" JsonThrows.
Definition handler : Body := BodyValue true "function () {}" JsonUndefined.

(** A form upload: an object as body and the multipart content type. *)
Definition upload : Options :=
  {| body := Some empty_object;
     headers := {[ "Content-Type" := "multipart/form-data" ]};
     debug := false; logBodyLength := None; timeout := None;
     responseType := EmptyString; successCodes := Unset |}.

(** The loader and its elements over the transport that cannot reach
    [http://a.example/]. *)
Definition load : Urls -> option Legacy -> Env unit
  -> Env unit * result Failure (list nat) :=
  processDocuments unit (unreachable "http://a.example/") "translation-server"
    Unbound string nat source_text measure.

Definition element : string -> Env unit -> Env unit * result Failure nat :=
  func unit (unreachable "http://a.example/") "translation-server"
    Unbound string nat source_text measure.

(** A JSON body that holds a password. *)
Definition login_body : string :=
  "{" +:+ String quote ("password" +:+ String quote (":" +:+ String quote
    ("secret" +:+ String quote "}"))).

End Samples.

End HTTP.

(** * The web endpoint *)

Module WebEndpoint.

(** [ctx.request.body] after body parsing: nothing, the text of a
    [text/plain] request, or the object of a JSON request, of which the
    handler reads the [session] field ([None] when the field is absent or
    null, [Some s] for the JSON string [s]). *)
Inductive Data :=
| NoData
| Text (s : string)
| Object (session : option string).

(** Truthiness of the body: [!data] holds for a missing body and for the
    empty text. *)
Definition data_truthy (d : Data) : bool :=
  match d with
  | NoData => false
  | Text s => negb (String.eqb s EmptyString)
  | Object _ => true
  end.

(** Truthiness of [data.session]: an absent field and the empty string are
    falsy. *)
Definition id_truthy (sessionID : option string) : bool :=
  match sessionID with
  | None => false
  | Some s => negb (String.eqb s EmptyString)
  end.

(** The fields of a session that the endpoint reads or writes. [ctx] and
    [next] identify the exchange the session currently answers. *)
Record Session := {
  id : string;
  started : Z;
  ctx : nat;
  next : nat;
  data : Data
}.

(** Modelled from the spec: the constructor of [WebSession] lives in
    [webSession.js], which is not part of the sources. The specification's
    data model says that [id] is an opaque identifier generated when the
    session is created and [started] the timestamp of that moment; the
    generated identifier and the clock reading are inputs here. *)
Definition WebSession (fresh : string) (now : Z) (ctx next : nat) (data : Data)
  : Session :=
  {| id := fresh; started := now; ctx := ctx; next := next; data := data |}.

(** Timeout for select requests, in seconds. *)
Definition SELECT_TIMEOUT : Z := 15.

(** The module state: the object [sessionsWaitingForSelection] (its own
    properties), the counter [requestsSinceGC], the number of [gc]
    callbacks handed to [setTimeout] that have not run yet, and whether
    [Object.prototype] has been given the properties [ctx], [next] and
    [data] (see [handle_enter]). *)
Record State := {
  sessionsWaitingForSelection : gmap string Session;
  requestsSinceGC : Z;
  timers : nat;
  polluted : bool
}.

Definition initial : State :=
  {| sessionsWaitingForSelection := ∅; requestsSinceGC := 0;
     timers := 0; polluted := false |}.

Definition with_sessions (f : gmap string Session -> gmap string Session)
  (st : State) : State :=
  {| sessionsWaitingForSelection := f (sessionsWaitingForSelection st);
     requestsSinceGC := requestsSinceGC st;
     timers := timers st; polluted := polluted st |}.

Definition with_counter (n : Z) (st : State) : State :=
  {| sessionsWaitingForSelection := sessionsWaitingForSelection st;
     requestsSinceGC := n;
     timers := timers st; polluted := polluted st |}.

Definition with_timers (n : nat) (st : State) : State :=
  {| sessionsWaitingForSelection := sessionsWaitingForSelection st;
     requestsSinceGC := requestsSinceGC st;
     timers := n; polluted := polluted st |}.

Definition pollute (st : State) : State :=
  {| sessionsWaitingForSelection := sessionsWaitingForSelection st;
     requestsSinceGC := requestsSinceGC st;
     timers := timers st; polluted := true |}.

(** *** Property access on the session object

    [sessionsWaitingForSelection] is created by the literal [{}], so a
    read [sessionsWaitingForSelection[k]] that finds no own property
    continues in [Object.prototype]. *)

Definition Object_prototype : list string :=
  [ "constructor"; "__proto__"; "hasOwnProperty"; "isPrototypeOf";
    "propertyIsEnumerable"; "toLocaleString"; "toString"; "valueOf";
    "__defineGetter__"; "__defineSetter__"; "__lookupGetter__";
    "__lookupSetter__" ].

(** The properties a follow-up naming [__proto__] adds to
    [Object.prototype]. *)
Definition assigned_on_resume : list string := [ "ctx"; "next"; "data" ].

Definition inherited (st : State) (k : string) : bool :=
  bool_decide (k ∈ Object_prototype)
  || (polluted st && bool_decide (k ∈ assigned_on_resume)).

(** What a read of property [k] yields: nothing, a stored session, or a
    value found on the prototype chain (a function or an object, so
    truthy, and without a method [handleURL]). *)
Inductive Property :=
| Undefined
| Own (s : Session)
| Inherited (k : string).

Definition get_property (k : string) (st : State) : Property :=
  match sessionsWaitingForSelection st !! k with
  | Some s => Own s
  | None => if inherited st k then Inherited k else Undefined
  end.

(** [delete sessionsWaitingForSelection[k]] removes an own property and
    nothing else. *)
Definition delete_property (k : string) (st : State) : State :=
  with_sessions (delete k) st.

(** [sessionsWaitingForSelection[k] = s]. An assignment to [__proto__]
    reaches the accessor inherited from [Object.prototype] and creates no
    own property; identifiers are generated by [WebSession], and the
    re-parenting such an assignment would cause is not represented. *)
Definition set_property (k : string) (s : Session) (st : State) : State :=
  if String.eqb k "__proto__" then st else with_sessions (<[k := s]>) st.

(** *** Requests and failures *)

(** One inbound exchange: whether [ctx.is('text/plain') || ctx.is('json')]
    holds, the parsed body, the identities of [ctx] and [next], and what a
    [new WebSession] would draw for this exchange. *)
Record Request := {
  content_ok : bool;
  body : Data;
  rctx : nat;
  rnext : nat;
  fresh_id : string;
  clock : Z
}.

(** What leaves [handle] as an exception: [ctx.throw] and [ctx.assert]
    raise an HTTP error with a status and a message; calling a property
    that is not a function raises a [TypeError]; an exception raised by
    the workflow passes through. *)
Inductive Fault :=
| HttpError (status : Z) (message : string)
| TypeError (message : string)
| WorkflowError.

Definition ctx_throw {A} (status : Z) (message : string) : M State Fault A :=
  throw (HttpError status message).

(** [ctx.assert(c, status)]: without a message of its own the error
    carries the reason phrase of the status. *)
Definition reason_phrase (status : Z) : string :=
  if status =? 400 then "Bad Request"
  else if status =? 415 then "Unsupported Media Type"
  else EmptyString.

Definition ctx_assert (c : bool) (status : Z) : M State Fault unit :=
  if c then ret tt else ctx_throw status (reason_phrase status).

(** [setTimeout(() => { gc(); })]: one more callback waits to run. *)
Definition setTimeout_gc : M State Fault unit :=
  modify (fun st => with_timers (S (timers st)) st).

(** [/^https?:/] *)
Definition match_http (s : string) : bool :=
  String.prefix "http:" s || String.prefix "https:" s.

(** The value bound to [session] before [session.handleURL()] is called. *)
Inductive Callee :=
| ASession (s : Session)
| Foreign (k : string).

(** [handle], from its entry to the point where it suspends on
    [await session.handleURL()]. The result is the session whose workflow
    is now running. *)
Definition handle_enter (r : Request) : M State Fault Session :=
  do ctx_assert (content_ok r) 415 in
  do setTimeout_gc in
  let data := body r in
  do when (negb (data_truthy data))
       (ctx_throw 400 ("POST data not provided" +:+ newline)) in
  let* session :=
    match data with
    | Object sessionID =>
        do when (negb (id_truthy sessionID))
             (ctx_throw 400 "'session' not provided") in
        let k := default "" sessionID in
        let* found := gets (get_property k) in
        match found with
        | Undefined => ctx_throw 400 "Session not found"
        | Own s =>
            do modify (delete_property k) in
            ret (ASession {| id := id s; started := started s;
                             ctx := rctx r; next := rnext r; data := data |})
        | Inherited k' =>
            do modify (delete_property k) in
            (* session.ctx = ctx; session.next = next; session.data = data
               land on the inherited value; when that value is
               Object.prototype itself they become inherited properties
               of the session object *)
            do when (String.eqb k' "__proto__") (modify pollute) in
            ret (Foreign k')
        end
    | _ =>
        ret (ASession (WebSession (fresh_id r) (clock r) (rctx r) (rnext r) data))
    end in
  do when (match data with
           | Text url => negb (match_http url)
           | _ => false
           end)
       (ctx_throw 400 "URL not provided") in
  match session with
  | ASession s => ret s
  | Foreign _ => throw (TypeError "session.handleURL is not a function")
  end.

(** Modelled from the spec: [WebSession.prototype.handleURL] is not part of
    the sources. From the endpoint's side its whole effect is either an
    exception or a value of [ctx.response.status]; [id] and [started] are
    fixed at creation (data model of the specification). *)
Inductive Outcome :=
| Finished (status : Z)
| Raised.

(** [handle], from the return of [await session.handleURL()] to its end:
    store the session if returning multiple choices. *)
Definition handle_leave (session : Session) (o : Outcome) (st : State) : State :=
  match o with
  | Finished status =>
      if status =? 300 then set_property (id session) session st else st
  | Raised => st
  end.

(** A whole exchange in which nothing else runs between the two halves. *)
Definition handle (r : Request) (o : Outcome) (st : State)
  : State * result Fault Z :=
  match handle_enter r st with
  | (st', Ok session) =>
      (handle_leave session o st',
       match o with
       | Finished status => Ok status
       | Raised => Err WorkflowError
       end)
  | (st', Err e) => (st', Err e)
  end.

(** *** Garbage collection *)

(** The test of the loop body:
    [session.started && Date.now() >= session.started + SELECT_TIMEOUT * 1000];
    a start time of zero is falsy. *)
Definition expired (now : Z) (session : Session) : bool :=
  negb (started session =? 0)
  && (started session + SELECT_TIMEOUT * 1000 <=? now).

(** [gc]: the clock is read once per sweep. *)
Definition gc (now : Z) (st : State) : State :=
  let n := requestsSinceGC st + 1 in
  if n =? 3 then
    with_counter 0
      (with_sessions (filter (fun kv => expired now kv.2 = false)) st)
  else with_counter n st.

(** *** The endpoint under load

    Exchanges overlap: while one handler is suspended on its workflow,
    other requests arrive, workflows of other exchanges finish, and
    scheduled [gc] callbacks fire. Each of these runs to completion before
    the next one starts. *)

Inductive Event :=
| Arrive (r : Request)
| Settle (n : nat) (o : Outcome)
| Timer (now : Z).

(** A configuration: the module state, the sessions whose workflow is
    running, and a record of the workflows that have finished with the
    session they ran on (kept for stating properties; the program does not
    read it). *)
Record Config := {
  state : State;
  awaiting : list Session;
  finished : list (Session * Outcome)
}.

Definition start : Config :=
  {| state := initial; awaiting := []; finished := [] |}.

Definition step (c : Config) (e : Event) : Config :=
  match e with
  | Arrive r =>
      match handle_enter r (state c) with
      | (st, Ok session) =>
          {| state := st; awaiting := awaiting c ++ [session];
             finished := finished c |}
      | (st, Err _) =>
          {| state := st; awaiting := awaiting c; finished := finished c |}
      end
  | Settle n o =>
      match awaiting c !! n with
      | Some session =>
          {| state := handle_leave session o (state c);
             awaiting := take n (awaiting c) ++ drop (S n) (awaiting c);
             finished := (session, o) :: finished c |}
      | None => c
      end
  | Timer now =>
      match timers (state c) with
      | S n =>
          {| state := gc now (with_timers n (state c));
             awaiting := awaiting c; finished := finished c |}
      | O => c
      end
  end.

Definition run (events : list Event) : Config := fold_left step events start.

(** Every stored session is stored under its own identifier and belongs to
    a workflow that finished with status 300. *)
Definition stored_pending (c : Config) : Prop :=
  forall (k : string) (s : Session),
    sessionsWaitingForSelection (state c) !! k = Some s ->
    id s = k /\ (s, Finished 300) ∈ finished c.

(** A request that arrives at a time other than zero. [Date.now] counts
    the milliseconds since the start of 1970, so every request of a server
    in service does. *)
Definition timed (e : Event) : Prop :=
  match e with
  | Arrive r => clock r <> 0
  | _ => True
  end.

(** Every session of a configuration, stored or with its workflow
    running, has a start time other than zero. *)
Definition started_set (c : Config) : Prop :=
  (forall (k : string) (s : Session),
     sessionsWaitingForSelection (state c) !! k = Some s -> started s <> 0)
  /\ (forall s : Session, s ∈ awaiting c -> started s <> 0).

(** The number of [gc] callbacks an event schedules: one for a request
    that passes the check of the content type. *)
Definition schedules (e : Event) : nat :=
  match e with
  | Arrive r => if content_ok r then 1%nat else O
  | _ => O
  end.

Fixpoint scheduled (events : list Event) : nat :=
  match events with
  | [] => O
  | e :: rest => (schedules e + scheduled rest)%nat
  end.

(** *** Sample exchanges *)
Module Samples.

(** A request for a URL; [fresh] and [now] are the identifier and the
    start time its session gets. *)
Definition url_request (fresh : string) (now : Z) : Request :=
  {| content_ok := true; body := Text "http://example.org/article";
     rctx := 1; rnext := 1; fresh_id := fresh; clock := now |}.

(** A follow-up that carries the session identifier [k]. *)
Definition follow_up (k : string) : Request :=
  {| content_ok := true; body := Object (Some k);
     rctx := 2; rnext := 2; fresh_id := "unused"; clock := 0 |}.

(** The session this server issued under the identifier [abc], and the
    state in which it waits for its selection. *)
Definition issued : Session :=
  WebSession "abc" 1000 1 1 (Text "http://example.org/article").

Definition waiting : State :=
  state (run [Arrive (url_request "abc" 1000); Settle 0 (Finished 300)]).

(** A store at the third tick of the counter, with a session started at
    time 1000, one started at 19000 and one whose start time is zero. *)
Definition old : Session := WebSession "old" 1000 1 1 NoData.
Definition young : Session := WebSession "young" 19000 2 2 NoData.
Definition unset : Session := WebSession "unset" 0 3 3 NoData.

Definition due : State :=
  {| sessionsWaitingForSelection :=
       <["old" := old]> (<["young" := young]> (<["unset" := unset]> ∅));
     requestsSinceGC := 2; timers := 0; polluted := false |}.

(** A server in service: two requests, at the times 1000 and 19000, have
    ended with status 300 and their sessions wait under the identifiers
    [first] and [second]; two of the scheduled sweeps have been called. *)
Definition busy : list Event :=
  [ Arrive (url_request "first" 1000); Settle 0 (Finished 300);
    Arrive (url_request "second" 19000); Settle 0 (Finished 300);
    Timer 19500; Timer 19600 ].

End Samples.

End WebEndpoint.

(** * Properties of the HTTP functions *)

Module HTTPProps.
Import HTTP.

Lemma ToNumber_colon (s : string) : ToNumber (String ":" s) = NaN.
Proof. reflexivity. Qed.

(** The text appended to the logged line is empty whatever the body and
    the cap: the concatenation compared with the cap starts with a colon
    and so converts to [NaN]. *)
Lemma logBody_of_empty (body : string) (n : Z) : logBody_of body n = EmptyString.
Proof.
  unfold logBody_of, string_gt_number.
  change ((": " +:+ substr0 n body) +:+ pretty (Z.of_nat (String.length body)))
    with (String ":" (String " " (substr0 n body +:+
            pretty (Z.of_nat (String.length body))))).
  rewrite ToNumber_colon. reflexivity.
Qed.

Lemma append_empty_r (s : string) : s +:+ EmptyString = s.
Proof.
  induction s as [|c s IH]; [reflexivity|].
  change (String c (s +:+ EmptyString) = String c s). rewrite IH. reflexivity.
Qed.

Lemma requested_app (tr1 tr2 : list Event) :
  requested (tr1 ++ tr2) = requested tr1 ++ requested tr2.
Proof.
  induction tr1 as [|e tr1 IH]; [reflexivity|].
  destruct e as [line|[uri m h t b]|u|e|]; simpl; rewrite IH; reflexivity.
Qed.

Section ClientFacts.

Context {World : Type}.
Variable transport : Call -> World -> Reply * World.
Variable userAgent : string.
Variable status : Binding.

#[local] Abbreviation request := (request World transport userAgent status).
#[local] Abbreviation prepare := (prepare World userAgent).
#[local] Abbreviation callback := (callback World status).

Lemma prepare_refuses (method : string) (options : Options) (b : Body)
    (env : Env World) :
  method = "GET" \/ method = "HEAD" ->
  body options = Some b ->
  prepare method options env =
    (env, Err (Thrown (PlainError
       ("HTTP " +:+ method +:+ " cannot have a request body ("
        +:+ display b +:+ ")")))).
Proof.
  intros Hm Hb. unfold HTTP.prepare.
  destruct Hm as [-> | ->]; simpl; rewrite Hb; reflexivity.
Qed.

(** When the request can be sent the preparation changes nothing in the
    environment, and the text it appends to the logged line is empty. *)
Lemma prepare_accepts (method : string) (options : Options) (env : Env World) :
  sendable method options ->
  exists b h, prepare method options env = (env, Ok (b, h, EmptyString)).
Proof.
  intros Hcase. unfold HTTP.prepare. case_bool_decide as Hin.
  - destruct Hcase as [(Hg & Hh & _) | Hb].
    + exfalso. rewrite !elem_of_cons, elem_of_nil in Hin. tauto.
    + rewrite Hb. eexists _, _. reflexivity.
  - destruct (body options) as [b|] eqn:Hb; [|eexists _, _; reflexivity].
    destruct Hcase as [(_ & _ & Hc) | Hnone]; [|congruence].
    rewrite Hb in Hc. unfold converts in Hc.
    destruct (body_truthy (Some b)); [|eexists _, _; reflexivity].
    destruct (stringify b) as [text| |]; try discriminate Hc.
    rewrite logBody_of_empty. eexists _, _. reflexivity.
Qed.

(** A body that has to be converted and has no JSON text makes the
    preparation throw a [TypeError]; the environment is as before. *)
Lemma prepare_unconvertible (method : string) (options : Options)
    (env : Env World) :
  method <> "GET" -> method <> "HEAD" -> converts (body options) = false ->
  exists expression,
    prepare method options env = (env, Err (Thrown (TypeError expression))).
Proof.
  intros Hg Hh Hc. unfold HTTP.prepare. case_bool_decide as Hin.
  { exfalso. rewrite !elem_of_cons, elem_of_nil in Hin. tauto. }
  unfold converts in Hc. destruct (body options) as [b|]; [|discriminate].
  destruct (body_truthy (Some b)); [|discriminate].
  destruct (stringify b) as [text| |]; [discriminate| |]; eexists; reflexivity.
Qed.

(** Every request is of one of three kinds: it can be sent, it is a GET
    or HEAD request with a body, or its body cannot be converted. *)
Lemma request_kinds (method : string) (options : Options) :
  sendable method options
  \/ ((method = "GET" \/ method = "HEAD") /\ exists b, body options = Some b)
  \/ (method <> "GET" /\ method <> "HEAD" /\ converts (body options) = false).
Proof.
  destruct (body options) as [b|] eqn:Hb; [|left; by right].
  destruct (decide (method = "GET")) as [Hg|Hg]; [right; left; eauto|].
  destruct (decide (method = "HEAD")) as [Hh|Hh]; [right; left; eauto|].
  destruct (converts (Some b)) eqn:Hc.
  - left. left. rewrite Hb. auto.
  - right. right. auto.
Qed.

(** A request that can be sent logs the method and the URL, calls the
    transport once, for that URL, and hands the reply to the callback. *)
Lemma request_sends (method url : string) (options : Options) (env : Env World) :
  sendable method options ->
  exists h b,
    let c := MkCall url method h (default 15000 (timeout options)) b in
    request method url options env
    = callback url options (transport c (world env)).1
        {| world := (transport c (world env)).2;
           trace := trace env
                    ++ [Debug ("HTTP " +:+ method +:+ " " +:+ url); Sent c] |}.
Proof.
  intros Hcase. unfold HTTP.request, bind.
  destruct (prepare_accepts method options env Hcase) as (b & h & ->).
  unfold Zotero_debug, emit, modify, send. simpl.
  rewrite append_empty_r. exists h, b.
  destruct (transport _ _) as [reply w]. simpl.
  rewrite <- app_assoc. reflexivity.
Qed.

Lemma request_body_refused (method url : string) (options : Options)
    (b : Body) (env : Env World) :
  method = "GET" \/ method = "HEAD" ->
  body options = Some b ->
  request method url options env =
    (env, Err (Thrown (PlainError
       ("HTTP " +:+ method +:+ " cannot have a request body ("
        +:+ display b +:+ ")")))).
Proof.
  intros Hm Hb. unfold HTTP.request, bind.
  rewrite (prepare_refuses method options b env Hm Hb). reflexivity.
Qed.

Lemma request_unconvertible (method url : string) (options : Options)
    (env : Env World) :
  method <> "GET" -> method <> "HEAD" -> converts (body options) = false ->
  exists expression,
    request method url options env
    = (env, Err (Thrown (TypeError expression))).
Proof.
  intros Hg Hh Hc.
  destruct (prepare_unconvertible method options env Hg Hh Hc) as [x Hp].
  exists x. unfold HTTP.request, bind. rewrite Hp. reflexivity.
Qed.

(** The callback logs at most the response and calls nothing. *)
Lemma callback_trace (url : string) (options : Options) (reply : Reply)
    (env : Env World) :
  exists lines,
    trace (callback url options reply env).1 = trace env ++ map Debug lines.
Proof.
  unfold HTTP.callback, bind, throw, ret, when, Zotero_debug, emit, modify.
  destruct reply as [code | code rh rb]; [exists []; simpl; by rewrite app_nil_r|].
  destruct (successCodes options) as [| |codes]; [| |destruct status as [|v]];
    simpl; try (exists []; simpl; by rewrite app_nil_r).
  - destruct ((200 <=? code) && (code <? 300)); simpl;
      [|exists []; simpl; by rewrite app_nil_r].
    destruct (debug options); simpl;
      [eexists [_]; reflexivity | exists []; simpl; by rewrite app_nil_r].
  - destruct (debug options); simpl;
      [eexists [_]; reflexivity | exists []; simpl; by rewrite app_nil_r].
  - destruct (includes codes v); simpl;
      [|exists []; simpl; by rewrite app_nil_r].
    destruct (debug options); simpl;
      [eexists [_]; reflexivity | exists []; simpl; by rewrite app_nil_r].
Qed.

Lemma requested_debug (lines : list string) : requested (map Debug lines) = [].
Proof. induction lines as [|l lines IH]; [reflexivity | exact IH]. Qed.

(** No failure of the callback is a [TimeoutError]. *)
Lemma callback_never_TimeoutError (url : string) (options : Options)
    (reply : Reply) (env : Env World) :
  match (callback url options reply env).2 with
  | Err f => is_TimeoutError (error_of f) = false
  | Ok _ => True
  end.
Proof.
  unfold HTTP.callback, bind, throw, ret, when, Zotero_debug, emit, modify.
  destruct reply as [code | code rh rb]; [reflexivity|].
  destruct (successCodes options) as [| |codes]; [| |destruct status as [|v]];
    simpl; try reflexivity.
  - destruct ((200 <=? code) && (code <? 300)); simpl; [|reflexivity].
    destruct (debug options); exact I.
  - destruct (debug options); exact I.
  - destruct (includes codes v); simpl; [|reflexivity].
    destruct (debug options); exact I.
Qed.

(** The settlement of the callback, by the kind of [successCodes]. *)
Lemma callback_failed (url : string) (options : Options) (code : string)
    (env : Env World) :
  (callback url options (Failed code) env).2 = Err (Rejected (TransportError code)).
Proof. reflexivity. Qed.

Lemma callback_allow_all (url : string) (options : Options) (code : Z)
    (h : gmap string string) (b : string) (env : Env World) :
  successCodes options = AllowAll ->
  (callback url options (Responded code h b) env).2
  = Ok {| responseText := b; responseHeaders := h; statusCode := code |}.
Proof.
  intros Hs. unfold HTTP.callback, bind. rewrite Hs. simpl.
  unfold when, Zotero_debug, emit, modify. destruct (debug options); reflexivity.
Qed.

Lemma callback_default (url : string) (options : Options) (code : Z)
    (h : gmap string string) (b : string) (env : Env World) :
  successCodes options = Unset ->
  (callback url options (Responded code h b) env).2
  = if (200 <=? code) && (code <? 300)
    then Ok {| responseText := b; responseHeaders := h; statusCode := code |}
    else Err (Rejected (StatusError url code b)).
Proof.
  intros Hs. unfold HTTP.callback, bind. rewrite Hs. simpl.
  destruct ((200 <=? code) && (code <? 300)); simpl; [|reflexivity].
  unfold when, Zotero_debug, emit, modify. destruct (debug options); reflexivity.
Qed.

Lemma callback_codes (url : string) (options : Options) (codes : list Z)
    (code : Z) (h : gmap string string) (b : string) (env : Env World) :
  successCodes options = Codes codes ->
  (callback url options (Responded code h b) env).2
  = match status with
    | Unbound => Err (Uncaught (ReferenceError "status"))
    | Bound v =>
        if includes codes v
        then Ok {| responseText := b; responseHeaders := h; statusCode := code |}
        else Err (Rejected (StatusError url code b))
    end.
Proof.
  intros Hs. unfold HTTP.callback, bind. rewrite Hs.
  destruct status as [|v]; simpl; [reflexivity|].
  destruct (includes codes v); simpl; [|reflexivity].
  unfold when, Zotero_debug, emit, modify. destruct (debug options); reflexivity.
Qed.

(** C7. A call of [request] with method GET or HEAD and a body that is not
    null throws an [Error] at once: the environment is returned as it was,
    so no line is logged and the transport is not called. *)
Theorem request_get_head_body_throws (method url : string) (options : Options)
    (b : Body) (env : Env World) :
  method = "GET" \/ method = "HEAD" ->
  body options = Some b ->
  exists message,
    request method url options env = (env, Err (Thrown (PlainError message)))
    /\ requested (trace (request method url options env).1) = requested (trace env).
Proof.
  intros Hm Hb. eexists.
  rewrite (request_body_refused method url options b env Hm Hb).
  split; reflexivity.
Qed.

(** The lines logged before the transport is called: the one line made
    of the method and the URL when the request is sent, none when the call
    throws. *)
Lemma request_log_sent (method url : string) (options : Options) (w : World) :
  sendable method options ->
  logged_before_send (trace (request method url options (fresh w)).1)
  = ["HTTP " +:+ method +:+ " " +:+ url].
Proof.
  intros Hcase.
  destruct (request_sends method url options (fresh w) Hcase) as (h & b & ->).
  match goal with
  | |- context [callback ?u ?o ?reply ?e] =>
      destruct (callback_trace u o reply e) as (lines & ->)
  end.
  reflexivity.
Qed.

Lemma request_log_line (method url : string) (options : Options) (w : World) :
  logged_before_send (trace (request method url options (fresh w)).1) = []
  \/ logged_before_send (trace (request method url options (fresh w)).1)
     = ["HTTP " +:+ method +:+ " " +:+ url].
Proof.
  destruct (request_kinds method options)
    as [Hs | [[Hm [b Hb]] | (Hg & Hh & Hc)]].
  - right. by apply request_log_sent.
  - left. by rewrite (request_body_refused _ _ _ b).
  - left. destruct (request_unconvertible method url options (fresh w) Hg Hh Hc)
      as [x ->]. reflexivity.
Qed.

(** C8. Whatever the body holds, a line logged before sending is made of
    the method and the URL alone: it is the same line for every other
    choice of body and options, so a secret that the caller puts in the
    body, such as the value after a password key, is not in it. The debug
    option plays no part. *)
Theorem request_log_hides_body (method url : string) (options options' : Options)
    (w w' : World) (secret line : string) :
  line ∈ logged_before_send (trace (request method url options (fresh w)).1) ->
  contains secret ("HTTP " +:+ method +:+ " " +:+ url) = false ->
  contains secret line = false
  /\ (forall line',
        line' ∈ logged_before_send
                  (trace (request method url options' (fresh w')).1) ->
        line' = line).
Proof.
  intros Hin Hsecret.
  assert (Hline : forall o v l,
    l ∈ logged_before_send (trace (request method url o (fresh v)).1) ->
    l = "HTTP " +:+ method +:+ " " +:+ url).
  { intros o v l Hl.
    destruct (request_log_line method url o v) as [Hlog | Hlog];
      rewrite Hlog in Hl.
    - apply elem_of_nil in Hl. contradiction.
    - by apply list_elem_of_singleton in Hl. }
  rewrite (Hline options w line Hin). split; [exact Hsecret|].
  intros line' Hin'. apply (Hline options' w' line' Hin').
Qed.

(** C9. The line logged for a POST request never shows the body: it ends
    after the URL, for every body that is sent and every cap; a body that
    cannot be converted to text makes the call throw before any line is
    logged. At the request below the claim expects the line to continue
    with a colon and the body. *)
Theorem request_log_omits_body :
  (forall (url : string) (options : Options) (w : World),
     logged_before_send (trace (request "POST" url options (fresh w)).1)
     = if converts (body options) then ["HTTP POST " +:+ url] else [])
  /\ (forall w : World,
     logged_before_send
       (trace (request "POST" "http://example.org/login"
                 (Samples.with_body (BodyString "user=bob&lang=en"))
                 (fresh w)).1)
     = ["HTTP POST http://example.org/login"]).
Proof.
  assert (H : forall url options w,
    logged_before_send (trace (request "POST" url options (fresh w)).1)
    = if converts (body options) then ["HTTP POST " +:+ url] else []).
  { intros url options w. destruct (converts (body options)) eqn:Hc.
    - apply (request_log_sent "POST"). left. by repeat split.
    - destruct (request_unconvertible "POST" url options (fresh w)) as [x ->];
        [discriminate | discriminate | exact Hc | reflexivity]. }
  split; [exact H|]. intros w.
  exact (H "http://example.org/login"
           (Samples.with_body (BodyString "user=bob&lang=en")) w).
Qed.

(** No failure of [request] is a [TimeoutError]. *)
Lemma request_never_TimeoutError (method url : string) (options : Options)
    (env : Env World) :
  match (request method url options env).2 with
  | Err f => is_TimeoutError (error_of f) = false
  | Ok _ => True
  end.
Proof.
  destruct (request_kinds method options)
    as [Hs | [[Hm [b Hb]] | (Hg & Hh & Hc)]].
  - destruct (request_sends method url options env Hs) as (h & b' & ->).
    apply callback_never_TimeoutError.
  - by rewrite (request_body_refused _ _ _ b).
  - by destruct (request_unconvertible method url options env Hg Hh Hc)
      as [x ->].
Qed.

(** An error reported by the transport is forwarded as it is. *)
Lemma request_forwards_transport_error (method url : string)
    (options : Options) (env : Env World) (code : string) :
  sendable method options ->
  (forall c, (transport c (world env)).1 = Failed code) ->
  (request method url options env).2 = Err (Rejected (TransportError code)).
Proof.
  intros Hcase Ht.
  destruct (request_sends method url options env Hcase) as (h' & b' & ->).
  cbv zeta. rewrite Ht. apply callback_failed.
Qed.

(** With [successCodes: false] every completed response resolves. *)
Lemma request_allow_all (method url : string) (options : Options)
    (env : Env World) (code : Z) (h : gmap string string) (b : string) :
  sendable method options ->
  successCodes options = AllowAll ->
  (forall c, (transport c (world env)).1 = Responded code h b) ->
  (request method url options env).2
  = Ok {| responseText := b; responseHeaders := h; statusCode := code |}.
Proof.
  intros Hcase Hs Ht.
  destruct (request_sends method url options env Hcase) as (h' & b' & ->).
  cbv zeta. rewrite Ht. by apply callback_allow_all.
Qed.

(** Without [successCodes] a completed response resolves exactly when its
    status code is from 200 to 299, and is otherwise rejected with a
    [StatusError] that carries the code. *)
Lemma request_default_codes (method url : string) (options : Options)
    (env : Env World) (code : Z) (h : gmap string string) (b : string) :
  sendable method options ->
  successCodes options = Unset ->
  (forall c, (transport c (world env)).1 = Responded code h b) ->
  (request method url options env).2
  = if (200 <=? code) && (code <? 300)
    then Ok {| responseText := b; responseHeaders := h; statusCode := code |}
    else Err (Rejected (StatusError url code b)).
Proof.
  intros Hcase Hs Ht.
  destruct (request_sends method url options env Hcase) as (h' & b' & ->).
  cbv zeta. rewrite Ht. by apply callback_default.
Qed.

(** With an array of success codes the outcome is decided by the binding
    of [status], not by the status code of the response. *)
Lemma request_codes_ignore_response (method url : string) (options : Options)
    (env : Env World) (codes : list Z) (code : Z) (h : gmap string string)
    (b : string) :
  sendable method options ->
  successCodes options = Codes codes ->
  (forall c, (transport c (world env)).1 = Responded code h b) ->
  (request method url options env).2
  = match status with
    | Unbound => Err (Uncaught (ReferenceError "status"))
    | Bound v =>
        if includes codes v
        then Ok {| responseText := b; responseHeaders := h; statusCode := code |}
        else Err (Rejected (StatusError url code b))
    end.
Proof.
  intros Hcase Hs Ht.
  destruct (request_sends method url options env Hcase) as (h' & b' & ->).
  cbv zeta. rewrite Ht. by apply callback_codes.
Qed.

End ClientFacts.

(** The witness of C7: a GET request with the body [q=1]. *)
Lemma request_get_head_body_throws_witness :
  ("GET" = "GET" \/ "GET" = "HEAD")
  /\ body (Samples.with_body (BodyString "q=1")) = Some (BodyString "q=1")
  /\ exists message,
       HTTP.request unit (Samples.answering 200 "ok") "translation-server"
         Unbound "GET" "http://example.org/"
         (Samples.with_body (BodyString "q=1")) (fresh tt)
       = (fresh tt, Err (Thrown (PlainError message)))
       /\ requested (trace (HTTP.request unit (Samples.answering 200 "ok")
              "translation-server" Unbound "GET" "http://example.org/"
              (Samples.with_body (BodyString "q=1")) (fresh tt)).1)
          = requested (trace (fresh tt)).
Proof.
  split; [left; reflexivity|]. split; [reflexivity|].
  apply (request_get_head_body_throws (Samples.answering 200 "ok")
           "translation-server" Unbound "GET" "http://example.org/"
           (Samples.with_body (BodyString "q=1")) (BodyString "q=1") (fresh tt));
    [left; reflexivity | reflexivity].
Defined.

(** The witness of C8: a POST request whose body holds the password
    [secret]; the logged line does not contain it, and it is the line
    logged for the same request with another body. *)
Lemma request_log_hides_body_witness :
  "HTTP POST http://example.org/login"
    ∈ logged_before_send
        (trace (HTTP.request unit (Samples.answering 200 "ok")
                  "translation-server" Unbound "POST" "http://example.org/login"
                  (Samples.with_body (BodyString Samples.login_body)) (fresh tt)).1)
  /\ contains "secret" Samples.login_body = true
  /\ contains "secret" ("HTTP " +:+ "POST" +:+ " " +:+ "http://example.org/login")
     = false
  /\ contains "secret" "HTTP POST http://example.org/login" = false
  /\ (forall line',
        line' ∈ logged_before_send
                  (trace (HTTP.request unit (Samples.answering 200 "ok")
                            "translation-server" Unbound "POST"
                            "http://example.org/login"
                            (Samples.with_body (BodyString "public"))
                            (fresh tt)).1) ->
        line' = "HTTP POST http://example.org/login").
Proof.
  assert (Hin : "HTTP POST http://example.org/login"
    ∈ logged_before_send
        (trace (HTTP.request unit (Samples.answering 200 "ok")
                  "translation-server" Unbound "POST" "http://example.org/login"
                  (Samples.with_body (BodyString Samples.login_body)) (fresh tt)).1)).
  { vm_compute. left. }
  split; [exact Hin|]. split; [reflexivity|]. split; [reflexivity|].
  apply (request_log_hides_body (Samples.answering 200 "ok")
           "translation-server" Unbound "POST" "http://example.org/login"
           (Samples.with_body (BodyString Samples.login_body))
           (Samples.with_body (BodyString "public")) tt tt "secret"
           "HTTP POST http://example.org/login" Hin).
  reflexivity.
Defined.

(** C6. A timeout is reported by the transport as an error with the code
    ETIMEDOUT, and [request] rejects with that error as it is: no failure
    of [request] is a [TimeoutError]. *)
Theorem request_timeout_is_transport_error :
  (forall (World : Type) (transport : Call -> World -> Reply * World)
          (userAgent : string) (status : Binding) (method url : string)
          (options : Options) (env : Env World),
     match (HTTP.request World transport userAgent status method url options env).2 with
     | Err f => is_TimeoutError (error_of f) = false
     | Ok _ => True
     end)
  /\ (HTTP.request unit (Samples.failing "ETIMEDOUT") "translation-server"
        Unbound "GET" "http://example.org/" (Samples.with_timeout 1000)
        (fresh tt)).2
     = Err (Rejected (TransportError "ETIMEDOUT")).
Proof.
  split.
  - intros. apply request_never_TimeoutError.
  - apply request_forwards_transport_error; [right; reflexivity | reflexivity].
Qed.

(** C4. A response with status 404 and the success codes [404]: the test
    reads the identifier [status], which nothing declares, instead of the
    status code of the response, so the callback raises a ReferenceError
    and the promise never settles; were [status] a global that holds no
    number, the request would be rejected although 404 is listed. The same
    response fails with a [StatusError] carrying 404 under the default
    options and succeeds with [successCodes: false]. *)
Theorem request_success_codes_read_status :
  (HTTP.request unit (Samples.answering 404 "gone") "translation-server"
     Unbound "GET" "http://example.org/" (Samples.with_codes (Codes [404]))
     (fresh tt)).2
  = Err (Uncaught (ReferenceError "status"))
  /\ (HTTP.request unit (Samples.answering 404 "gone") "translation-server"
        (Bound None) "GET" "http://example.org/" (Samples.with_codes (Codes [404]))
        (fresh tt)).2
     = Err (Rejected (StatusError "http://example.org/" 404 "gone"))
  /\ (HTTP.request unit (Samples.answering 404 "gone") "translation-server"
        Unbound "GET" "http://example.org/" (Samples.with_codes Unset)
        (fresh tt)).2
     = Err (Rejected (StatusError "http://example.org/" 404 "gone"))
  /\ (HTTP.request unit (Samples.answering 404 "gone") "translation-server"
        Unbound "GET" "http://example.org/" (Samples.with_codes AllowAll)
        (fresh tt)).2
     = Ok {| responseText := "gone"; responseHeaders := ∅; statusCode := 404 |}.
Proof.
  split; [|split; [|split]].
  - rewrite (request_codes_ignore_response _ _ _ _ _ _ _ [404] 404 ∅ "gone");
      [reflexivity | right; reflexivity | reflexivity | reflexivity].
  - rewrite (request_codes_ignore_response _ _ _ _ _ _ _ [404] 404 ∅ "gone");
      [reflexivity | right; reflexivity | reflexivity | reflexivity].
  - rewrite (request_default_codes _ _ _ _ _ _ _ 404 ∅ "gone");
      [reflexivity | right; reflexivity | reflexivity | reflexivity].
  - rewrite (request_allow_all _ _ _ _ _ _ _ 404 ∅ "gone");
      [reflexivity | right; reflexivity | reflexivity | reflexivity].
Qed.

Section LoaderFacts.

Context {World Document T : Type}.
Variable transport : Call -> World -> Reply * World.
Variable userAgent : string.
Variable status : Binding.
Variable JSDOM : string -> string -> result Error Document.
Variable processor : Document -> string -> World -> result Error T * World.

#[local] Abbreviation func :=
  (func World transport userAgent status Document T JSDOM processor).
#[local] Abbreviation drain :=
  (drain World transport userAgent status Document T JSDOM processor).
#[local] Abbreviation processDocuments :=
  (processDocuments World transport userAgent status Document T JSDOM processor).
#[local] Abbreviation announce := (announce World).
#[local] Abbreviation notified := (notified World).

Lemma activity_app (tr1 tr2 : list Event) :
  activity (tr1 ++ tr2) = activity tr1 ++ activity tr2.
Proof.
  induction tr1 as [|e tr1 IH]; [reflexivity|].
  destruct e as [line|[uri m h t b]|u|e|]; simpl; rewrite IH; reflexivity.
Qed.

Lemma activity_debug (lines : list string) : activity (map Debug lines) = [].
Proof. induction lines as [|l lines IH]; [reflexivity | exact IH]. Qed.

(** What one element of the queue adds to the trace: the logged line and
    the call of the transport for its URL, perhaps a logged response, and
    then the call of the processor if the request and the construction of
    the document succeeded. *)
Lemma func_trace (url : string) (env : Env World) :
  exists h t b lines tail,
    trace (func url env).1
    = trace env
      ++ Debug ("HTTP GET " +:+ url) :: Sent (MkCall url "GET" h t b)
         :: map Debug lines ++ tail
    /\ (tail = [] \/ tail = [Processed url])
    /\ (forall v, (func url env).2 = Ok v -> tail = [Processed url]).
Proof.
  unfold HTTP.func, bind.
  destruct (request_sends transport userAgent status "GET" url
              document_options env) as (h & b & ->); [by right|].
  cbv zeta. exists h, (default 15000 (timeout document_options)), b.
  match goal with
  | |- context [HTTP.callback _ _ ?u ?o ?reply ?e] =>
      destruct (callback_trace status u o reply e) as (lines & Htr);
      destruct (HTTP.callback _ _ u o reply e) as [env1 [r|f]]
  end; simpl in Htr; exists lines.
  - destruct (JSDOM (responseText r) url) as [dom|e].
    + exists [Processed url]. unfold call_processor.
      destruct (processor dom url (world env1)) as [[v|e] w]; simpl;
        rewrite Htr, <- !app_assoc; repeat split; auto.
    + exists []. simpl. rewrite Htr, <- !app_assoc, app_nil_r.
      repeat split; auto. unfold throw. discriminate.
  - exists []. simpl. rewrite Htr, <- !app_assoc, app_nil_r.
    repeat split; auto. discriminate.
Qed.

(** One element of the queue issues exactly one request, for its URL,
    whether it succeeds or fails. *)
Lemma func_requested (url : string) (env : Env World) :
  requested (trace (func url env).1) = requested (trace env) ++ [url].
Proof.
  destruct (func_trace url env) as (h & t & b & lines & tail & -> & Htail & _).
  rewrite requested_app. simpl. rewrite requested_app, requested_debug.
  destruct Htail as [-> | ->]; reflexivity.
Qed.

(** An element that succeeds has fetched its URL and then processed it. *)
Lemma func_activity_success (url : string) (env env' : Env World) (v : T) :
  func url env = (env', Ok v) ->
  activity (trace env') = activity (trace env) ++ [Fetch url; Process url].
Proof.
  intros Hf.
  destruct (func_trace url env) as (h & t & b & lines & tail & Htr & _ & Hok).
  rewrite Hf in Htr, Hok. simpl in Htr, Hok. rewrite (Hok v eq_refl) in Htr.
  rewrite Htr, activity_app. simpl. rewrite activity_app, activity_debug.
  reflexivity.
Qed.


(** A failure of one element is the rejection of a promise: the request
    without body never throws, and the default success codes never read
    [status]. *)
Lemma func_failure (url : string) (env env' : Env World) (f : Failure) :
  func url env = (env', Err f) -> f = Rejected (error_of f).
Proof.
  unfold HTTP.func, bind.
  destruct (request_sends transport userAgent status "GET" url
              document_options env) as (h & b & ->); [by right|].
  cbv zeta. destruct (transport _ (world env)) as [reply w]. simpl.
  destruct reply as [code | code rh rb].
  { simpl. unfold throw. intros; simplify_eq. reflexivity. }
  unfold HTTP.callback, bind. simpl.
  destruct ((200 <=? code) && (code <? 300)); simpl;
    [|unfold throw; intros; simplify_eq; reflexivity].
  destruct (JSDOM rb url) as [dom|e]; [|unfold throw; intros; simplify_eq; reflexivity].
  unfold call_processor. simpl. destruct (processor _ _ _) as [[v|e] w'];
    unfold throw; intros; simplify_eq; reflexivity.
Qed.

Lemma notified_observed (legacy : option Legacy) (e : Error) (env : Env World) :
  requested (trace (notified legacy e env)) = requested (trace env)
  /\ activity (trace (notified legacy e env)) = activity (trace env).
Proof.
  unfold notified. destruct legacy as [l|]; [|done].
  destruct (onError l); [|done].
  simpl. rewrite requested_app, activity_app. simpl. by rewrite !app_nil_r.
Qed.

Lemma drain_failure (legacy : option Legacy) (url : string) (rest : list string)
    (acc : list T) (env env' : Env World) (f : Failure) :
  func url env = (env', Err f) ->
  drain legacy (url :: rest) acc env
  = (notified legacy (error_of f) env', Err (Rejected (error_of f))).
Proof.
  intros Hf. pose proof (func_failure _ _ _ _ Hf) as Hk.
  simpl. unfold bind, try_catch. rewrite Hf, Hk. simpl.
  unfold notified, when, emit, modify, throw.
  destruct legacy as [l|]; [|reflexivity].
  destruct (onError l); reflexivity.
Qed.

Lemma drain_success (legacy : option Legacy) (url : string) (rest : list string)
    (acc : list T) (env env' : Env World) (v : T) :
  func url env = (env', Ok v) ->
  drain legacy (url :: rest) acc env = drain legacy rest (acc ++ [v]) env'.
Proof.
  intros Hf. simpl. unfold bind, try_catch. rewrite Hf. reflexivity.
Qed.

(** A queue that is drained to its end has fetched and processed each of
    its URLs, one after the other, and added one result for each. *)
Lemma drain_complete (legacy : option Legacy) (urls : list string) :
  forall (acc rs : list T) (env env' : Env World),
    drain legacy urls acc env = (env', Ok rs) ->
    requested (trace env') = requested (trace env) ++ urls
    /\ activity (trace env') = activity (trace env) ++ serial urls
    /\ exists new, rs = acc ++ new /\ length new = length urls.
Proof.
  induction urls as [|url urls IH]; intros acc rs env env' Hd.
  - simpl in Hd. unfold ret in Hd. simplify_eq. simpl. rewrite !app_nil_r.
    split; [reflexivity|]. split; [reflexivity|].
    exists []. rewrite app_nil_r. done.
  - destruct (func url env) as [env1 [v|f]] eqn:Hf.
    + rewrite (drain_success _ _ _ _ _ _ _ Hf) in Hd.
      destruct (IH _ _ _ _ Hd) as (Hreq & Hact & new & -> & Hlen).
      pose proof (func_requested url env) as Hone. rewrite Hf in Hone.
      simpl in Hone.
      rewrite Hreq, Hone, Hact, (func_activity_success _ _ _ _ Hf),
        <- !app_assoc.
      split; [reflexivity|]. split; [reflexivity|].
      exists (v :: new). rewrite <- ?app_assoc. simpl. auto.
    + rewrite (drain_failure _ _ _ _ _ _ _ Hf) in Hd. discriminate.
Qed.

Lemma drain_app (legacy : option Legacy) (before after : list string) :
  forall (acc rs : list T) (env env' : Env World),
    drain legacy before acc env = (env', Ok rs) ->
    drain legacy (before ++ after) acc env = drain legacy after rs env'.
Proof.
  induction before as [|url before IH]; intros acc rs env env' Hd.
  - simpl in Hd. unfold ret in Hd. simplify_eq. reflexivity.
  - destruct (func url env) as [env1 [v|f]] eqn:Hf.
    + rewrite (drain_success _ _ _ _ _ _ _ Hf) in Hd.
      rewrite <- app_comm_cons, (drain_success _ _ _ _ _ _ _ Hf). eauto.
    + rewrite (drain_failure _ _ _ _ _ _ _ Hf) in Hd. discriminate.
Qed.

Lemma announce_observed (legacy : option Legacy) (env : Env World) :
  (announce legacy env).2 = Ok tt
  /\ requested (trace (announce legacy env).1) = requested (trace env)
  /\ activity (trace (announce legacy env).1) = activity (trace env).
Proof.
  unfold HTTP.announce, when, Zotero_debug, emit, modify, ret.
  case_bool_decide; simpl; [|done].
  rewrite requested_app, activity_app. simpl. rewrite !app_nil_r. done.
Qed.


(** C10. A single URL given as a string is handled as the array of that
    one URL: the two calls are the same computation, and when the one
    request and the processor succeed the result is the array of the one
    result of the processor, after exactly one request. *)
Theorem processDocuments_single_url (legacy : option Legacy) (url : string)
    (env env1 : Env World) (v : T) :
  func url (announce legacy env).1 = (env1, Ok v) ->
  processDocuments (One url) legacy env
  = processDocuments (Many [url]) legacy env
  /\ (processDocuments (One url) legacy env).2 = Ok [v]
  /\ requested (trace (processDocuments (One url) legacy env).1)
     = requested (trace env) ++ [url].
Proof.
  intros Hf. split; [reflexivity|].
  destruct (announce_observed legacy env) as (Hok & Hann & _).
  pose proof (func_requested url (announce legacy env).1) as Hone.
  rewrite Hf in Hone. simpl in Hone.
  unfold HTTP.processDocuments, bind.
  destruct (announce legacy env) as [env0 r0].
  simpl in Hok, Hann, Hf, Hone. subst r0. cbv beta iota zeta.
  rewrite (drain_success _ _ _ _ _ _ _ Hf). simpl. unfold ret, when, emit, modify.
  destruct legacy as [l|]; [destruct (onDone l)|]; simpl;
    rewrite ?requested_app, ?app_nil_r, Hone, Hann; done.
Qed.

End LoaderFacts.


(** The witness of C10: one reachable URL given as a string. *)
Lemma processDocuments_single_url_witness :
  HTTP.processDocuments unit (Samples.unreachable "http://a.example/")
    "translation-server" Unbound string nat Samples.source_text Samples.measure
    (One "http://b.example/") None (fresh tt)
  = HTTP.processDocuments unit (Samples.unreachable "http://a.example/")
      "translation-server" Unbound string nat Samples.source_text Samples.measure
      (Many ["http://b.example/"]) None (fresh tt)
  /\ (HTTP.processDocuments unit (Samples.unreachable "http://a.example/")
        "translation-server" Unbound string nat Samples.source_text
        Samples.measure (One "http://b.example/") None (fresh tt)).2
     = Ok [13%nat]
  /\ requested
       (trace (HTTP.processDocuments unit (Samples.unreachable "http://a.example/")
                 "translation-server" Unbound string nat Samples.source_text
                 Samples.measure (One "http://b.example/") None (fresh tt)).1)
     = ["http://b.example/"].
Proof.
  exact (processDocuments_single_url
           (Samples.unreachable "http://a.example/") "translation-server"
           Unbound Samples.source_text Samples.measure
           None "http://b.example/" (fresh tt) _ 13%nat eq_refl).
Defined.

End HTTPProps.

(** * Properties of the web endpoint *)

Module WebEndpointProps.
Import WebEndpoint.

(** ** Entering the handler *)

Lemma truthy_id (k : string) : k <> EmptyString -> id_truthy (Some k) = true.
Proof. intros Hk. simpl. by rewrite (proj2 (String.eqb_neq _ _) Hk). Qed.

(** A follow-up that names a stored session takes it out of the store and
    binds it to the new exchange. *)
Lemma handle_enter_stored (r : Request) (st : State) (k : string) (s : Session) :
  content_ok r = true -> body r = Object (Some k) -> k <> EmptyString ->
  sessionsWaitingForSelection st !! k = Some s ->
  handle_enter r st
  = (delete_property k (with_timers (S (timers st)) st),
     Ok {| id := id s; started := started s;
           ctx := rctx r; next := rnext r; data := body r |}).
Proof.
  intros Hc Hb Hk Hs. unfold handle_enter, bind, ctx_assert, setTimeout_gc.
  rewrite Hc, Hb. simpl data_truthy. cbv beta iota.
  unfold when, modify, gets, ret. simpl negb. cbv beta iota.
  rewrite (truthy_id k Hk). simpl negb. cbv beta iota.
  unfold get_property. simpl. rewrite Hs. reflexivity.
Qed.

(** A follow-up that names nothing, in the store or above it, fails with
    400 and the store is as before. *)
Lemma handle_enter_unknown (r : Request) (st : State) (k : string) :
  content_ok r = true -> body r = Object (Some k) -> k <> EmptyString ->
  sessionsWaitingForSelection st !! k = None -> inherited st k = false ->
  handle_enter r st
  = (with_timers (S (timers st)) st, Err (HttpError 400 "Session not found")).
Proof.
  intros Hc Hb Hk Hs Hi. unfold handle_enter, bind, ctx_assert, setTimeout_gc.
  rewrite Hc, Hb. simpl data_truthy. cbv beta iota.
  unfold when, modify, gets, ret. simpl negb. cbv beta iota.
  rewrite (truthy_id k Hk). simpl negb. cbv beta iota.
  unfold get_property, inherited in *. simpl in *. rewrite Hs, Hi. reflexivity.
Qed.

(** A follow-up whose [session] is missing or empty fails with 400 and
    another message. *)
Lemma handle_enter_no_id (r : Request) (st : State) (sessionID : option string) :
  content_ok r = true -> body r = Object sessionID ->
  id_truthy sessionID = false ->
  handle_enter r st
  = (with_timers (S (timers st)) st,
     Err (HttpError 400 "'session' not provided")).
Proof.
  intros Hc Hb Hk. unfold handle_enter, bind, ctx_assert, setTimeout_gc.
  rewrite Hc, Hb. simpl data_truthy. cbv beta iota.
  unfold when, modify, gets, ret. simpl negb. cbv beta iota.
  rewrite Hk. reflexivity.
Qed.

(** A follow-up that names a property the store inherits is not refused:
    the inherited value is taken for a session and the call of its
    [handleURL] raises a TypeError. *)
Lemma handle_enter_inherited (r : Request) (st : State) (k : string) :
  content_ok r = true -> body r = Object (Some k) -> k <> EmptyString ->
  sessionsWaitingForSelection st !! k = None -> inherited st k = true ->
  (handle_enter r st).2 = Err (TypeError "session.handleURL is not a function").
Proof.
  intros Hc Hb Hk Hs Hi. unfold handle_enter, bind, ctx_assert, setTimeout_gc.
  rewrite Hc, Hb. simpl data_truthy. cbv beta iota.
  unfold when, modify, gets, ret. simpl negb. cbv beta iota.
  rewrite (truthy_id k Hk). simpl negb. cbv beta iota.
  unfold get_property, inherited in *. simpl in *. rewrite Hs, Hi.
  destruct (String.eqb k "__proto__"); reflexivity.
Qed.

Example follow_up_constructor_faults :
  (handle_enter (Samples.follow_up "constructor") initial).2
  = Err (TypeError "session.handleURL is not a function").
Proof.
  apply (handle_enter_inherited _ _ "constructor");
    [reflexivity | reflexivity | discriminate | reflexivity | reflexivity].
Qed.

(** Entering the handler never adds to the store: it leaves the stored
    sessions as they are or deletes one. *)
Lemma handle_enter_sessions (r : Request) (st : State) :
  sessionsWaitingForSelection (handle_enter r st).1
  = sessionsWaitingForSelection st
  \/ exists k,
       sessionsWaitingForSelection (handle_enter r st).1
       = delete k (sessionsWaitingForSelection st).
Proof.
  unfold handle_enter, bind, ctx_assert, setTimeout_gc, ctx_throw, throw,
    when, modify, gets, ret.
  destruct (content_ok r); [|left; reflexivity].
  destruct (body r) as [|url|sessionID]; simpl; [left; reflexivity| |].
  - destruct (String.eqb url ""); simpl; [left; reflexivity|].
    destruct (match_http url); left; reflexivity.
  - destruct (id_truthy sessionID); simpl; [|left; reflexivity].
    destruct (get_property _ _) as [|s|k']; simpl; [left; reflexivity| |].
    + right. eexists. reflexivity.
    + right. exists (default "" sessionID).
      destruct (String.eqb k' "__proto__"); reflexivity.
Qed.

Lemma handle_leave_other (session : Session) (o : Outcome) (st : State) :
  o <> Finished 300 -> handle_leave session o st = st.
Proof.
  intros Ho. destruct o as [status|]; [|reflexivity]. simpl.
  destruct (status =? 300) eqn:Hs; [|reflexivity].
  apply Z.eqb_eq in Hs. congruence.
Qed.

(** ** The store holds pending sessions only *)

Lemma step_stored_pending (c : Config) (e : Event) :
  stored_pending c -> stored_pending (step c e).
Proof.
  intros Hinv k s. destruct e as [r | n o | now]; simpl.
  - pose proof (handle_enter_sessions r (state c)) as Hs.
    destruct (handle_enter r (state c)) as [st [session | err]]; simpl in *;
      (destruct Hs as [-> | [k' ->]];
       [apply Hinv | rewrite lookup_delete_Some; intros [_ Hk]; by apply Hinv]).
  - destruct (awaiting c !! n) as [session|]; [|apply Hinv]. simpl.
    destruct o as [status|]; simpl.
    + destruct (status =? 300) eqn:Hstatus.
      * apply Z.eqb_eq in Hstatus. subst status. unfold set_property.
        destruct (String.eqb (id session) "__proto__"); simpl.
        -- intros Hk. destruct (Hinv k s Hk) as [Hid Hin].
           split; [exact Hid | by apply list_elem_of_further].
        -- rewrite lookup_insert_Some. intros [[<- <-] | [_ Hk]].
           ++ split; [reflexivity | apply list_elem_of_here].
           ++ destruct (Hinv k s Hk) as [Hid Hin].
              split; [exact Hid | by apply list_elem_of_further].
      * intros Hk. destruct (Hinv k s Hk) as [Hid Hin].
        split; [exact Hid | by apply list_elem_of_further].
    + intros Hk. destruct (Hinv k s Hk) as [Hid Hin].
      split; [exact Hid | by apply list_elem_of_further].
  - destruct (timers (state c)) as [|n]; [apply Hinv|]. simpl.
    unfold gc. simpl. destruct (requestsSinceGC (state c) + 1 =? 3); simpl.
    + rewrite map_lookup_filter_Some. intros [Hk _]. by apply Hinv.
    + apply Hinv.
Qed.

Lemma fold_stored_pending (events : list Event) :
  forall c, stored_pending c -> stored_pending (fold_left step events c).
Proof.
  induction events as [|e events IH]; intros c Hinv; [exact Hinv|].
  simpl. apply IH. by apply step_stored_pending.
Qed.

(** C2. Whatever requests arrive, workflows finish and sweeps run, every
    session in the store is stored under its own identifier and is one
    whose workflow finished with status 300; and the end of a workflow
    with any other outcome leaves the store as it was. *)
Theorem store_holds_pending_sessions (events : list Event) (k : string)
    (s : Session) (n : nat) (o : Outcome) :
  sessionsWaitingForSelection (state (run events)) !! k = Some s ->
  o <> Finished 300 ->
  (id s = k /\ (s, Finished 300) ∈ finished (run events))
  /\ sessionsWaitingForSelection (state (step (run events) (Settle n o)))
     = sessionsWaitingForSelection (state (run events)).
Proof.
  intros Hk Ho. split.
  - apply (fold_stored_pending events start); [|exact Hk].
    intros k' s' Hk'. simpl in Hk'. rewrite lookup_empty in Hk'. discriminate.
  - simpl. destruct (awaiting (run events) !! n) as [session|]; [|reflexivity].
    simpl. by rewrite handle_leave_other.
Qed.

(** The witness of C2: one request ends with status 300 and its session
    is stored; a second request is then under way, and when its workflow
    ends with status 200 the store is as before. *)
Lemma store_holds_pending_sessions_witness :
  sessionsWaitingForSelection
    (state (run [Arrive (Samples.url_request "abc" 1000);
                 Settle 0 (Finished 300);
                 Arrive (Samples.url_request "xyz" 2000)])) !! "abc"
  = Some Samples.issued
  /\ (id Samples.issued = "abc"
      /\ (Samples.issued, Finished 300)
         ∈ finished (run [Arrive (Samples.url_request "abc" 1000);
                          Settle 0 (Finished 300);
                          Arrive (Samples.url_request "xyz" 2000)]))
  /\ sessionsWaitingForSelection
       (state (step (run [Arrive (Samples.url_request "abc" 1000);
                          Settle 0 (Finished 300);
                          Arrive (Samples.url_request "xyz" 2000)])
                 (Settle 0 (Finished 200))))
     = sessionsWaitingForSelection
         (state (run [Arrive (Samples.url_request "abc" 1000);
                      Settle 0 (Finished 300);
                      Arrive (Samples.url_request "xyz" 2000)])).
Proof.
  assert (Hstored : sessionsWaitingForSelection
    (state (run [Arrive (Samples.url_request "abc" 1000);
                 Settle 0 (Finished 300);
                 Arrive (Samples.url_request "xyz" 2000)])) !! "abc"
    = Some Samples.issued) by reflexivity.
  split; [exact Hstored|].
  apply (store_holds_pending_sessions
           [Arrive (Samples.url_request "abc" 1000);
            Settle 0 (Finished 300);
            Arrive (Samples.url_request "xyz" 2000)]
           "abc" Samples.issued 0 (Finished 200) Hstored).
  discriminate.
Defined.

(** ** Follow-up requests *)

(** C1. A follow-up whose identifier is the name of a property that the
    store object inherits from [Object.prototype], such as [constructor],
    [toString] or [__proto__], is not refused. Where no session is stored
    under that name -- the identifier was never issued, or the session has
    been resumed -- the lookup finds the inherited value, the test for a
    missing session passes, and the call of [handleURL] on that value
    raises a TypeError, instead of the error 400, Session not found, that
    every other identifier without a session gets and that leaves the
    store as it is. The follow-up that names [constructor] on a server
    that has issued nothing is such a request, and after the one that
    names [__proto__] the assignments of the handler have landed on
    [Object.prototype]. *)
Theorem follow_up_inherited_name_faults :
  (forall (st : State) (r : Request) (k : string),
     content_ok r = true -> body r = Object (Some k) ->
     k ∈ Object_prototype ->
     sessionsWaitingForSelection st !! k = None ->
     (handle_enter r st).2
     = Err (TypeError "session.handleURL is not a function"))
  /\ (forall (st : State) (r : Request) (k : string),
        content_ok r = true -> body r = Object (Some k) ->
        k <> EmptyString -> inherited st k = false ->
        sessionsWaitingForSelection st !! k = None ->
        (handle_enter r st).2 = Err (HttpError 400 "Session not found")
        /\ sessionsWaitingForSelection (handle_enter r st).1
           = sessionsWaitingForSelection st)
  /\ (handle_enter (Samples.follow_up "constructor") initial).2
     = Err (TypeError "session.handleURL is not a function")
  /\ polluted (handle_enter (Samples.follow_up "__proto__") initial).1 = true.
Proof.
  split; [|split; [|split]].
  - intros st r k Hc Hb Hk Hs.
    apply (handle_enter_inherited r st k Hc Hb); [|exact Hs|].
    + intros ->. revert Hk. unfold Object_prototype.
      rewrite !elem_of_cons, elem_of_nil. intuition discriminate.
    + unfold inherited. by rewrite (bool_decide_eq_true_2 _ Hk).
  - intros st r k Hc Hb Hk Hi Hs.
    by rewrite (handle_enter_unknown r st k Hc Hb Hk Hs Hi).
  - apply follow_up_constructor_faults.
  - reflexivity.
Qed.

(** ** Garbage collection *)

Lemma expired_true (now : Z) (s : Session) :
  expired now s = true <->
  started s <> 0 /\ now - started s >= SELECT_TIMEOUT * 1000.
Proof.
  unfold expired, SELECT_TIMEOUT.
  rewrite andb_true_iff, negb_true_iff, Z.eqb_neq, Z.leb_le. lia.
Qed.

Lemma expired_false (now : Z) (s : Session) :
  expired now s = false <->
  started s = 0 \/ now - started s < SELECT_TIMEOUT * 1000.
Proof.
  unfold expired, SELECT_TIMEOUT.
  rewrite andb_false_iff, negb_false_iff, Z.eqb_eq, Z.leb_gt. lia.
Qed.

(** A sweep keeps exactly the sessions that have not expired. *)
Lemma gc_due_lookup (now : Z) (st : State) (k : string) (s : Session) :
  requestsSinceGC st + 1 = 3 ->
  sessionsWaitingForSelection (gc now st) !! k = Some s <->
  sessionsWaitingForSelection st !! k = Some s /\ expired now s = false.
Proof.
  intros Hdue. unfold gc. rewrite (proj2 (Z.eqb_eq _ _) Hdue). simpl.
  rewrite map_lookup_filter_Some. reflexivity.
Qed.

(** The counter is touched by [gc] alone and stays below 3. *)
Lemma handle_enter_counter (r : Request) (st : State) :
  requestsSinceGC (handle_enter r st).1 = requestsSinceGC st.
Proof.
  unfold handle_enter, bind, ctx_assert, setTimeout_gc, ctx_throw, throw,
    when, modify, gets, ret.
  destruct (content_ok r); [|reflexivity].
  destruct (body r) as [|url|sessionID]; simpl; [reflexivity| |].
  - destruct (String.eqb url ""); simpl; [reflexivity|].
    destruct (match_http url); reflexivity.
  - destruct (id_truthy sessionID); simpl; [|reflexivity].
    destruct (get_property _ _) as [|s|k']; simpl; [reflexivity|reflexivity|].
    destruct (String.eqb k' "__proto__"); reflexivity.
Qed.

Lemma handle_leave_counter (session : Session) (o : Outcome) (st : State) :
  requestsSinceGC (handle_leave session o st) = requestsSinceGC st.
Proof.
  destruct o as [status|]; [|reflexivity]. simpl.
  destruct (status =? 300); [|reflexivity].
  unfold set_property. destruct (String.eqb _ _); reflexivity.
Qed.

Lemma fold_counter (events : list Event) :
  forall c,
    0 <= requestsSinceGC (state c) < 3 ->
    0 <= requestsSinceGC (state (fold_left step events c)) < 3.
Proof.
  induction events as [|e events IH]; intros c Hc; [exact Hc|].
  simpl. apply IH. destruct e as [r | n o | now]; simpl.
  - pose proof (handle_enter_counter r (state c)) as Hr.
    destruct (handle_enter r (state c)) as [st [session | err]]; simpl in *;
      by rewrite Hr.
  - destruct (awaiting c !! n) as [session|]; [|exact Hc]. simpl.
    by rewrite handle_leave_counter.
  - destruct (timers (state c)) as [|n]; [exact Hc|]. simpl.
    unfold gc. simpl.
    destruct (requestsSinceGC (state c) + 1 =? 3) eqn:Hdue; simpl; [lia|].
    apply Z.eqb_neq in Hdue. lia.
Qed.

Lemma counter_below_three (events : list Event) :
  0 <= requestsSinceGC (state (run events)) < 3.
Proof. apply fold_counter. simpl. lia. Qed.

(** What a call of [gc] does to any state. When the counter reaches 3 the
    sweep removes every session whose start time is not zero and whose age
    is the wait window or more, keeps every other session, adds none, and
    resets the counter; otherwise it adds one to the counter and leaves
    the store as it is. *)
Lemma gc_sweep (now : Z) (st : State) :
  (requestsSinceGC st + 1 = 3 ->
     requestsSinceGC (gc now st) = 0
     /\ (forall k s,
           sessionsWaitingForSelection st !! k = Some s ->
           started s <> 0 -> now - started s >= SELECT_TIMEOUT * 1000 ->
           sessionsWaitingForSelection (gc now st) !! k = None)
     /\ (forall k s,
           sessionsWaitingForSelection st !! k = Some s ->
           started s = 0 \/ now - started s < SELECT_TIMEOUT * 1000 ->
           sessionsWaitingForSelection (gc now st) !! k = Some s)
     /\ (forall k,
           sessionsWaitingForSelection st !! k = None ->
           sessionsWaitingForSelection (gc now st) !! k = None))
  /\ (requestsSinceGC st + 1 <> 3 ->
        requestsSinceGC (gc now st) = requestsSinceGC st + 1
        /\ sessionsWaitingForSelection (gc now st)
           = sessionsWaitingForSelection st).
Proof.
  split.
  - intros Hdue. split; [|split; [|split]].
    + unfold gc. rewrite (proj2 (Z.eqb_eq _ _) Hdue). reflexivity.
    + intros k s Hk Hset Hage.
      destruct (sessionsWaitingForSelection (gc now st) !! k) as [s'|] eqn:Hl;
        [|reflexivity].
      apply gc_due_lookup in Hl as [Hk' Hexp]; [|exact Hdue].
      rewrite Hk in Hk'. injection Hk' as <-.
      apply expired_false in Hexp. lia.
    + intros k s Hk Hkeep. apply gc_due_lookup; [exact Hdue|].
      split; [exact Hk | by apply expired_false].
    + intros k Hk.
      destruct (sessionsWaitingForSelection (gc now st) !! k) as [s'|] eqn:Hl;
        [|reflexivity].
      apply gc_due_lookup in Hl as [Hk' _]; [|exact Hdue]. congruence.
  - intros Hnot. unfold gc. rewrite (proj2 (Z.eqb_neq _ _) Hnot).
    split; reflexivity.
Qed.

(** The sessions of a server in service have a start time: a session gets
    the time of the request that created it and keeps it when it is
    resumed and when it is stored. *)
Lemma handle_enter_started (r : Request) (st : State) (session : Session) :
  (handle_enter r st).2 = Ok session ->
  started session = clock r
  \/ exists k s,
       sessionsWaitingForSelection st !! k = Some s
       /\ started session = started s.
Proof.
  unfold handle_enter, bind, ctx_assert, setTimeout_gc, ctx_throw, throw,
    when, modify, gets, ret.
  destruct (content_ok r); [|discriminate]. simpl.
  destruct (body r) as [|url|sessionID]; simpl; [discriminate| |].
  - destruct (String.eqb url ""); simpl; [discriminate|].
    destruct (match_http url); simpl; [|discriminate].
    intros [= <-]. by left.
  - destruct (id_truthy sessionID); simpl; [|discriminate].
    unfold get_property. simpl.
    destruct (sessionsWaitingForSelection st !! default "" sessionID)
      as [s|] eqn:Hs; simpl.
    + intros [= <-]. right. eauto.
    + destruct (inherited _ _); simpl; [|discriminate].
      destruct (String.eqb _ "__proto__"); discriminate.
Qed.

Lemma step_started_set (c : Config) (e : Event) :
  timed e -> started_set c -> started_set (step c e).
Proof.
  intros Ht [Hstore Hwait]. destruct e as [r | n o | now]; simpl.
  - pose proof (handle_enter_sessions r (state c)) as Hs.
    pose proof (handle_enter_started r (state c)) as Hnew.
    assert (Hsub : forall st,
      sessionsWaitingForSelection st = sessionsWaitingForSelection (state c)
      \/ (exists k, sessionsWaitingForSelection st
                    = delete k (sessionsWaitingForSelection (state c))) ->
      forall k s, sessionsWaitingForSelection st !! k = Some s -> started s <> 0).
    { intros st [-> | [k' ->]] k s; [apply Hstore|].
      rewrite lookup_delete_Some. intros [_ Hk]. by apply (Hstore k). }
    destruct (handle_enter r (state c)) as [st [session | err]];
      simpl in Hs, Hnew |- *; (split; [by apply Hsub|]); simpl;
      [|exact Hwait].
    intros s. rewrite elem_of_app, list_elem_of_singleton.
    intros [Hin | ->]; [by apply Hwait|].
    destruct (Hnew session eq_refl) as [-> | (k & s & Hk & ->)];
      [exact Ht | by apply (Hstore k)].
  - destruct (awaiting c !! n) as [session|] eqn:Hn; [|by split]. simpl.
    assert (Hsession : started session <> 0).
    { apply Hwait. by apply list_elem_of_lookup_2 in Hn. }
    split; simpl.
    + intros k s. destruct o as [status|]; simpl; [|apply Hstore].
      destruct (status =? 300); [|apply Hstore]. unfold set_property.
      destruct (String.eqb (id session) "__proto__"); simpl; [apply Hstore|].
      rewrite lookup_insert_Some. intros [[_ <-] | [_ Hk]];
        [exact Hsession | by apply (Hstore k)].
    + intros s. rewrite elem_of_app. intros [Hin | Hin]; apply Hwait.
      * apply elem_of_take in Hin as (i & Hi & _).
        by apply list_elem_of_lookup_2 in Hi.
      * apply list_elem_of_lookup_1 in Hin as [i Hi].
        rewrite lookup_drop in Hi. by apply list_elem_of_lookup_2 in Hi.
  - destruct (timers (state c)) as [|m]; [by split|]. simpl.
    split; simpl; [|exact Hwait]. intros k s. unfold gc. simpl.
    destruct (requestsSinceGC (state c) + 1 =? 3); simpl; [|apply Hstore].
    rewrite map_lookup_filter_Some. intros [Hk _]. by apply (Hstore k).
Qed.

Lemma fold_started_set (events : list Event) :
  forall c,
    Forall timed events -> started_set c ->
    started_set (fold_left step events c).
Proof.
  induction events as [|e events IH]; intros c Ht Hinv; [exact Hinv|].
  apply Forall_cons in Ht as [He Ht].
  simpl. apply IH; [exact Ht | by apply step_started_set].
Qed.

(** C3. In every state that a server in service reaches, whatever
    requests have arrived, workflows have finished and sweeps have run,
    each call of [gc] adds one to the counter. When the counter reaches 3
    the sweep removes every session whose age is the wait window of 15
    seconds or more, leaves every session younger than the window in the
    store, adds no session, and resets the counter to zero. When the
    counter does not reach 3 the store is left as it is. The counter
    never passes 3. *)
Theorem sweep_removes_old_sessions (events : list Event) (now : Z) :
  Forall timed events ->
  (requestsSinceGC (state (run events)) + 1 = 3 ->
     requestsSinceGC (gc now (state (run events))) = 0
     /\ (forall k s,
           sessionsWaitingForSelection (state (run events)) !! k = Some s ->
           now - started s >= SELECT_TIMEOUT * 1000 ->
           sessionsWaitingForSelection (gc now (state (run events))) !! k = None)
     /\ (forall k s,
           sessionsWaitingForSelection (state (run events)) !! k = Some s ->
           now - started s < SELECT_TIMEOUT * 1000 ->
           sessionsWaitingForSelection (gc now (state (run events))) !! k
           = Some s)
     /\ (forall k,
           sessionsWaitingForSelection (state (run events)) !! k = None ->
           sessionsWaitingForSelection (gc now (state (run events))) !! k = None))
  /\ (requestsSinceGC (state (run events)) + 1 <> 3 ->
        requestsSinceGC (gc now (state (run events)))
        = requestsSinceGC (state (run events)) + 1
        /\ sessionsWaitingForSelection (gc now (state (run events)))
           = sessionsWaitingForSelection (state (run events)))
  /\ 0 <= requestsSinceGC (state (run events)) < 3.
Proof.
  intros Ht.
  assert (Hinv : started_set (run events)).
  { apply fold_started_set; [exact Ht|]. split; [|intros s Hs].
    - intros k s. simpl. by rewrite lookup_empty.
    - simpl in Hs. by apply elem_of_nil in Hs. }
  destruct Hinv as [Hstore _].
  destruct (gc_sweep now (state (run events))) as [Hdue Hnot].
  split; [|split; [exact Hnot | apply counter_below_three]].
  intros H3. destruct (Hdue H3) as (Hcount & Hremove & Hkeep & Hnone).
  split; [exact Hcount|]. split; [|split; [|exact Hnone]].
  - intros k s Hk Hage. apply (Hremove k s Hk); [by apply (Hstore k) | exact Hage].
  - intros k s Hk Hage. apply (Hkeep k s Hk). by right.
Qed.

(** The witness of C3: at time 20000 the third sweep of the server in
    service removes the session of the request that arrived at 1000 and
    keeps the one of the request that arrived at 19000. *)
Lemma sweep_removes_old_sessions_witness :
  Forall timed Samples.busy
  /\ requestsSinceGC (state (run Samples.busy)) + 1 = 3
  /\ requestsSinceGC (gc 20000 (state (run Samples.busy))) = 0
  /\ sessionsWaitingForSelection (gc 20000 (state (run Samples.busy))) !! "first"
     = None
  /\ sessionsWaitingForSelection (gc 20000 (state (run Samples.busy))) !! "second"
     = Some (WebSession "second" 19000 1 1 (Text "http://example.org/article")).
Proof.
  assert (Ht : Forall timed Samples.busy).
  { unfold Samples.busy. repeat constructor; discriminate. }
  assert (H3 : requestsSinceGC (state (run Samples.busy)) + 1 = 3) by reflexivity.
  destruct (sweep_removes_old_sessions Samples.busy 20000 Ht) as (Hdue & _ & _).
  destruct (Hdue H3) as (Hcount & Hremove & Hkeep & _).
  split; [exact Ht|]. split; [exact H3|]. split; [exact Hcount|]. split.
  - apply (Hremove "first"
             (WebSession "first" 1000 1 1 (Text "http://example.org/article")));
      [reflexivity | discriminate].
  - apply (Hkeep "second"
             (WebSession "second" 19000 1 1 (Text "http://example.org/article")));
      reflexivity.
Defined.

End WebEndpointProps.

(** * Further properties of the HTTP functions *)

Module HTTPExtras.
Import HTTP HTTPProps.

Lemma calls_app (tr1 tr2 : list Event) :
  calls (tr1 ++ tr2) = calls tr1 ++ calls tr2.
Proof.
  induction tr1 as [|e tr1 IH]; [reflexivity|].
  destruct e; simpl; rewrite IH; reflexivity.
Qed.

Lemma calls_debug (lines : list string) : calls (map Debug lines) = [].
Proof. induction lines as [|l lines IH]; [reflexivity | exact IH]. Qed.

Lemma logged_debug (lines : list string) : logged (map Debug lines) = lines.
Proof. induction lines as [|l lines IH]; [reflexivity | simpl; by rewrite IH]. Qed.

Section RequestFacts.

Context {World : Type}.
Variable transport : Call -> World -> Reply * World.
Variable userAgent : string.
Variable status : Binding.

#[local] Abbreviation request := (request World transport userAgent status).
#[local] Abbreviation prepare := (prepare World userAgent).
#[local] Abbreviation callback := (callback World status).

(** The headers of a request start from the caller's, with the configured
    user agent where the caller names none. *)
Lemma base_headers_user_agent (options : Options) :
  (headers options ∪ {["User-Agent" := userAgent]}) !! "User-Agent"
  = Some (default userAgent (headers options !! "User-Agent")).
Proof.
  rewrite lookup_union, lookup_singleton_eq.
  destruct (headers options !! "User-Agent"); reflexivity.
Qed.

Lemma base_headers_content_type (options : Options) :
  (headers options ∪ {["User-Agent" := userAgent]}) !! "Content-Type"
  = headers options !! "Content-Type".
Proof.
  rewrite lookup_union, lookup_singleton_ne by done.
  destruct (headers options !! "Content-Type"); reflexivity.
Qed.

Lemma content_type_user_agent (h : gmap string string) :
  content_type h !! "User-Agent" = h !! "User-Agent".
Proof.
  unfold content_type. destruct (h !! "Content-Type") as [v|].
  - destruct (String.eqb v ""); [by rewrite lookup_insert_ne|].
    destruct (String.eqb v "multipart/form-data"); [by rewrite lookup_delete_ne|].
    reflexivity.
  - by rewrite lookup_insert_ne.
Qed.

Lemma content_type_lookup (h : gmap string string) :
  content_type h !! "Content-Type" = adjusted (h !! "Content-Type").
Proof.
  unfold content_type, adjusted. destruct (h !! "Content-Type") as [v|] eqn:Hv.
  - destruct (String.eqb v ""); [by rewrite lookup_insert_eq|].
    destruct (String.eqb v "multipart/form-data"); [by rewrite lookup_delete_eq|].
    exact Hv.
  - by rewrite lookup_insert_eq.
Qed.

(** What the preparation hands on for a request that can be sent: the
    body as it goes out, and headers that carry a user agent and, for a
    truthy body, the adjusted content type. *)
Lemma prepare_sendable (method : string) (options : Options) (env : Env World) :
  sendable method options ->
  exists h,
    prepare method options env
    = (env, Ok (outgoing (body options), h, EmptyString))
    /\ h !! "User-Agent"
       = Some (default userAgent (headers options !! "User-Agent"))
    /\ h !! "Content-Type"
       = if body_truthy (body options)
         then adjusted (headers options !! "Content-Type")
         else headers options !! "Content-Type".
Proof.
  intros Hcase. unfold HTTP.prepare, outgoing. case_bool_decide as Hin.
  - destruct Hcase as [(Hg & Hh & _) | Hb].
    + exfalso. rewrite !elem_of_cons, elem_of_nil in Hin. tauto.
    + rewrite Hb. eexists. split; [reflexivity|]. simpl.
      split; [apply base_headers_user_agent | apply base_headers_content_type].
  - destruct (body options) as [b|] eqn:Hb.
    + destruct Hcase as [(_ & _ & Hc) | Hnone]; [|congruence].
      rewrite Hb in Hc. unfold converts in Hc.
      destruct (body_truthy (Some b)).
      * destruct (stringify b) as [text| |]; try discriminate Hc.
        rewrite logBody_of_empty. eexists. split; [reflexivity|].
        rewrite content_type_user_agent, content_type_lookup,
          base_headers_content_type.
        split; [apply base_headers_user_agent | reflexivity].
      * eexists. split; [reflexivity|].
        split; [apply base_headers_user_agent | apply base_headers_content_type].
    + eexists. split; [reflexivity|]. simpl.
      split; [apply base_headers_user_agent | apply base_headers_content_type].
Qed.

(** A request that can be sent, step by step: one logged line, one call
    of the transport with the URL, the method, the prepared headers, the
    timeout and the body as it goes out, then the callback on the reply. *)
Lemma request_call (method url : string) (options : Options) (env : Env World) :
  sendable method options ->
  exists h,
    let c := MkCall url method h (default 15000 (timeout options))
               (outgoing (body options)) in
    request method url options env
    = callback url options (transport c (world env)).1
        {| world := (transport c (world env)).2;
           trace := trace env
                    ++ [Debug ("HTTP " +:+ method +:+ " " +:+ url); Sent c] |}
    /\ h !! "User-Agent"
       = Some (default userAgent (headers options !! "User-Agent"))
    /\ h !! "Content-Type"
       = if body_truthy (body options)
         then adjusted (headers options !! "Content-Type")
         else headers options !! "Content-Type".
Proof.
  intros Hcase.
  destruct (prepare_sendable method options env Hcase) as (h & Hp & Hua & Hct).
  exists h. split; [|split; assumption].
  unfold HTTP.request, bind. rewrite Hp.
  unfold Zotero_debug, emit, modify, send. simpl.
  rewrite append_empty_r.
  destruct (transport _ _) as [reply w]. simpl.
  rewrite <- app_assoc. reflexivity.
Qed.

(** The callback calls nothing and leaves the world as it is. *)
Lemma callback_world (url : string) (options : Options) (reply : Reply)
    (env : Env World) :
  world (callback url options reply env).1 = world env.
Proof.
  unfold HTTP.callback, bind, throw, ret, when, Zotero_debug, emit, modify.
  destruct reply as [code | code rh rb]; [reflexivity|].
  destruct (successCodes options) as [| |codes]; [| |destruct status as [|v]];
    simpl; try reflexivity.
  - destruct ((200 <=? code) && (code <? 300)); simpl; [|reflexivity].
    destruct (debug options); reflexivity.
  - destruct (debug options); reflexivity.
  - destruct (includes codes v); simpl; [|reflexivity].
    destruct (debug options); reflexivity.
Qed.

(** The callback logs the response when the request succeeds in debug
    mode, and nothing otherwise. *)
Lemma callback_log (url : string) (options : Options) (reply : Reply)
    (env : Env World) :
  trace (callback url options reply env).1
  = trace env
    ++ map Debug
         match (callback url options reply env).2 with
         | Ok r =>
             if debug options
             then ["HTTP " +:+ pretty (statusCode r) +:+ " response: "
                   +:+ responseText r]
             else []
         | Err _ => []
         end.
Proof.
  unfold HTTP.callback, bind, throw, ret, when, Zotero_debug, emit, modify.
  destruct reply as [code | code rh rb]; [simpl; by rewrite app_nil_r|].
  destruct (successCodes options) as [| |codes]; [| |destruct status as [|v]];
    simpl; try (by rewrite app_nil_r).
  - destruct ((200 <=? code) && (code <? 300)); simpl; [|by rewrite app_nil_r].
    destruct (debug options); simpl; [reflexivity | by rewrite app_nil_r].
  - destruct (debug options); simpl; [reflexivity | by rewrite app_nil_r].
  - destruct (includes codes v); simpl; [|by rewrite app_nil_r].
    destruct (debug options); simpl; [reflexivity | by rewrite app_nil_r].
Qed.

(** What is sent for a body, by its truthiness. *)
Lemma outgoing_falsy (b : option Body) :
  body_truthy b = false -> outgoing b = b.
Proof.
  intros Hb. unfold outgoing. destruct b as [v|]; [|reflexivity].
  by rewrite Hb.
Qed.

Lemma outgoing_truthy (b : option Body) :
  body_truthy b = true -> converts b = true ->
  exists v text,
    b = Some v /\ stringify v = JsonText text
    /\ outgoing b = Some (BodyString text).
Proof.
  intros Hb Hc. unfold outgoing, converts in *.
  destruct b as [v|]; [|discriminate Hb]. rewrite Hb in Hc |- *.
  destruct (stringify v) as [text| |] eqn:Hs; try discriminate Hc. eauto.
Qed.

(** X1. A request that can be sent calls the transport exactly once --
    there is no retry, whatever the reply -- with the URL and the method
    as given, the timeout of the options or 15000, and the body: a falsy
    body (null, the empty string, zero, false) as the caller gave it,
    without conversion, and a truthy body as text, a string as it is and
    another value as its JSON text. The world after the request is the
    one the transport left. *)
Theorem request_calls_transport_once (method url : string) (options : Options)
    (env : Env World) :
  sendable method options ->
  exists h,
    calls (trace (request method url options env).1)
    = calls (trace env)
      ++ [MkCall url method h (default 15000 (timeout options))
            (outgoing (body options))]
    /\ world (request method url options env).1
       = (transport (MkCall url method h (default 15000 (timeout options))
                       (outgoing (body options))) (world env)).2
    /\ (body_truthy (body options) = false ->
        outgoing (body options) = body options)
    /\ (body_truthy (body options) = true ->
        exists v text,
          body options = Some v /\ stringify v = JsonText text
          /\ outgoing (body options) = Some (BodyString text)).
Proof.
  intros Hcase.
  destruct (request_call method url options env Hcase) as (h & Hrun & _).
  exists h. cbv zeta in Hrun. rewrite Hrun.
  rewrite callback_world, callback_log. simpl.
  rewrite !calls_app, calls_debug, app_nil_r.
  split; [reflexivity|]. split; [reflexivity|].
  split; [apply outgoing_falsy|].
  intros Hb. apply outgoing_truthy; [exact Hb|].
  destruct Hcase as [(_ & _ & Hc) | Hnone]; [exact Hc|].
  by rewrite Hnone in Hb.
Qed.

(** The calls of a request: none when it throws, the one above
    otherwise. *)
Lemma request_calls (method url : string) (options : Options) (w : World) :
  calls (trace (request method url options (fresh w)).1) = []
  \/ exists h,
       calls (trace (request method url options (fresh w)).1)
       = [MkCall url method h (default 15000 (timeout options))
            (outgoing (body options))]
       /\ sendable method options
       /\ h !! "User-Agent"
          = Some (default userAgent (headers options !! "User-Agent"))
       /\ h !! "Content-Type"
          = if body_truthy (body options)
            then adjusted (headers options !! "Content-Type")
            else headers options !! "Content-Type".
Proof.
  assert (Hsent : sendable method options ->
    exists h,
      calls (trace (request method url options (fresh w)).1)
      = [MkCall url method h (default 15000 (timeout options))
           (outgoing (body options))]
      /\ sendable method options
      /\ h !! "User-Agent"
         = Some (default userAgent (headers options !! "User-Agent"))
      /\ h !! "Content-Type"
         = if body_truthy (body options)
           then adjusted (headers options !! "Content-Type")
           else headers options !! "Content-Type").
  { intros Hcase.
    destruct (request_call method url options (fresh w) Hcase)
      as (h & Hrun & Hua & Hct).
    exists h. cbv zeta in Hrun. rewrite Hrun, callback_log. simpl.
    rewrite calls_debug. auto. }
  destruct (request_kinds method options)
    as [Hs | [[Hm [b Hb]] | (Hg & Hh & Hc)]].
  - right. by apply Hsent.
  - left. by rewrite (request_body_refused _ _ _ _ _ _ b).
  - left.
    destruct (request_unconvertible transport userAgent status method url
                options (fresh w) Hg Hh Hc) as [x ->].
    reflexivity.
Qed.

(** X2. Every call of the transport carries a [User-Agent] header: the
    caller's when the options name one, the configured one otherwise. *)
Theorem request_sends_user_agent (method url : string) (options : Options)
    (w : World) (c : Call) :
  c ∈ calls (trace (request method url options (fresh w)).1) ->
  call_headers c !! "User-Agent"
  = Some (default userAgent (headers options !! "User-Agent")).
Proof.
  intros Hc.
  destruct (request_calls method url options w) as [Hnone | (h & Hone & _ & Hua & _)].
  - rewrite Hnone in Hc. apply elem_of_nil in Hc. contradiction.
  - rewrite Hone in Hc. apply list_elem_of_singleton in Hc. subst c. exact Hua.
Qed.

(** X3. The [Content-Type] header of a call. Without a body, or with a
    falsy one (the empty string, zero, false), the caller's header is
    passed as it is and none is added. With a truthy body, a missing or
    empty content type becomes
    [application/x-www-form-urlencoded], the content type
    [multipart/form-data] is removed so that the transport sets it with
    its boundary, and any other is kept. *)
Theorem request_content_type (method url : string) (options : Options)
    (w : World) (c : Call) :
  c ∈ calls (trace (request method url options (fresh w)).1) ->
  (body_truthy (body options) = false ->
     call_headers c !! "Content-Type" = headers options !! "Content-Type")
  /\ (body_truthy (body options) = true ->
      headers options !! "Content-Type" = None
      \/ headers options !! "Content-Type" = Some EmptyString ->
      call_headers c !! "Content-Type"
      = Some "application/x-www-form-urlencoded")
  /\ (body_truthy (body options) = true ->
      headers options !! "Content-Type" = Some "multipart/form-data" ->
      call_headers c !! "Content-Type" = None)
  /\ (forall v,
        body_truthy (body options) = true ->
        headers options !! "Content-Type" = Some v ->
        v <> EmptyString -> v <> "multipart/form-data" ->
        call_headers c !! "Content-Type" = Some v).
Proof.
  intros Hc.
  destruct (request_calls method url options w) as [Hnone | (h & Hone & _ & _ & Hct)].
  { rewrite Hnone in Hc. apply elem_of_nil in Hc. contradiction. }
  rewrite Hone in Hc. apply list_elem_of_singleton in Hc. subst c. simpl.
  rewrite Hct. repeat split.
  - intros ->. reflexivity.
  - intros -> [-> | ->]; reflexivity.
  - intros -> ->. reflexivity.
  - intros v -> -> Hne Hnm. unfold adjusted.
    rewrite (proj2 (String.eqb_neq _ _) Hne), (proj2 (String.eqb_neq _ _) Hnm).
    reflexivity.
Qed.

(** X4. After the call of the transport a request logs one line, with the
    status code and the text of the response, when it succeeds and the
    debug option is on; it logs nothing when the option is off, and
    nothing when it fails, not even the response that made it fail. *)
Theorem request_logs_response_in_debug (method url : string)
    (options : Options) (w : World) :
  logged_after_send (trace (request method url options (fresh w)).1)
  = match (request method url options (fresh w)).2 with
    | Ok r =>
        if debug options
        then ["HTTP " +:+ pretty (statusCode r) +:+ " response: "
              +:+ responseText r]
        else []
    | Err _ => []
    end.
Proof.
  assert (Hsent : sendable method options ->
    logged_after_send (trace (request method url options (fresh w)).1)
    = match (request method url options (fresh w)).2 with
      | Ok r =>
          if debug options
          then ["HTTP " +:+ pretty (statusCode r) +:+ " response: "
                +:+ responseText r]
          else []
      | Err _ => []
      end).
  { intros Hcase.
    destruct (request_call method url options (fresh w) Hcase) as (h & Hrun & _).
    cbv zeta in Hrun. rewrite Hrun, callback_log. simpl.
    by rewrite logged_debug. }
  destruct (request_kinds method options)
    as [Hs | [[Hm [b Hb]] | (Hg & Hh & Hc)]].
  - by apply Hsent.
  - by rewrite (request_body_refused _ _ _ _ _ _ b).
  - destruct (request_unconvertible transport userAgent status method url
                options (fresh w) Hg Hh Hc) as [x ->].
    reflexivity.
Qed.

(** X5. Without [successCodes], a completed response resolves the request
    exactly when its status code is from 200 to 299, with the text, the
    headers and the status code of the response; any other status code
    rejects it with a [StatusError] that carries the URL, the status code
    and the text. *)
Theorem request_default_classification (method url : string)
    (options : Options) (env : Env World) (code : Z)
    (h : gmap string string) (b : string) :
  sendable method options ->
  successCodes options = Unset ->
  (forall c, (transport c (world env)).1 = Responded code h b) ->
  (200 <= code < 300 ->
     (request method url options env).2
     = Ok {| responseText := b; responseHeaders := h; statusCode := code |})
  /\ (~ 200 <= code < 300 ->
      (request method url options env).2
      = Err (Rejected (StatusError url code b))).
Proof.
  intros Hcase Hs Ht.
  rewrite (request_default_codes _ _ _ _ _ _ _ code h b Hcase Hs Ht).
  split; intros Hcode.
  - rewrite (proj2 (andb_true_iff _ _)); [reflexivity|].
    split; [apply Z.leb_le | apply Z.ltb_lt]; lia.
  - destruct ((200 <=? code) && (code <? 300)) eqn:Hin; [|reflexivity].
    apply andb_true_iff in Hin as [H1 H2].
    apply Z.leb_le in H1. apply Z.ltb_lt in H2. lia.
Qed.

(** X6. With [successCodes: false] every completed response resolves the
    request, whatever its status code, with the text, the headers and the
    status code of the response. *)
Theorem request_allow_all_resolves (method url : string) (options : Options)
    (env : Env World) (code : Z) (h : gmap string string) (b : string) :
  sendable method options ->
  successCodes options = AllowAll ->
  (forall c, (transport c (world env)).1 = Responded code h b) ->
  (request method url options env).2
  = Ok {| responseText := b; responseHeaders := h; statusCode := code |}.
Proof.
  intros Hcase Hs Ht.
  exact (request_allow_all _ _ _ _ _ _ _ code h b Hcase Hs Ht).
Qed.

(** The failures of the callback are rejections, but for the read of an
    unbound [status] when an array of success codes is given. *)
Lemma callback_failures (url : string) (options : Options) (reply : Reply)
    (env : Env World) (f : Failure) :
  (callback url options reply env).2 = Err f ->
  (exists e, f = Rejected e)
  \/ (f = Uncaught (ReferenceError "status") /\ status = Unbound
      /\ exists codes, successCodes options = Codes codes).
Proof.
  unfold HTTP.callback, bind, throw, ret, when, Zotero_debug, emit, modify.
  destruct reply as [code | code rh rb];
    [intros [= <-]; left; eauto|].
  destruct (successCodes options) as [| |codes] eqn:Hs;
    [| |destruct status as [|v] eqn:Hst]; simpl.
  - destruct ((200 <=? code) && (code <? 300)); simpl;
      [destruct (debug options); discriminate | intros [= <-]; left; eauto].
  - destruct (debug options); discriminate.
  - intros [= <-]. right. eauto.
  - destruct (includes codes v); simpl;
      [destruct (debug options); discriminate | intros [= <-]; left; eauto].
Qed.

(** X7. A request throws, instead of returning a promise, in exactly two
    cases: its method is GET or HEAD and a body is given, which is refused
    with a plain [Error]; or its method is another one and its body is
    truthy and has no JSON text, which raises a [TypeError] where
    [JSON.stringify] throws or where [substr] is called on the [undefined]
    it returned. A call that throws has logged nothing and has not called
    the transport. Every other failure is the rejection of the promise,
    with one exception: when an array of success codes is given and
    [status] is unbound, the callback raises a ReferenceError that nothing
    catches. *)
Theorem request_failure_kinds (method url : string) (options : Options)
    (env : Env World) :
  ((exists e, (request method url options env).2 = Err (Thrown e))
   <-> ((method = "GET" \/ method = "HEAD") /\ body options <> None)
       \/ (method <> "GET" /\ method <> "HEAD"
           /\ converts (body options) = false))
  /\ (forall e,
        (request method url options env).2 = Err (Thrown e) ->
        request method url options env = (env, Err (Thrown e))
        /\ (method = "GET" \/ method = "HEAD" ->
            exists message, e = PlainError message)
        /\ (method <> "GET" -> method <> "HEAD" ->
            exists expression, e = TypeError expression))
  /\ (forall e,
        (request method url options env).2 = Err (Uncaught e) ->
        e = ReferenceError "status" /\ status = Unbound
        /\ exists codes, successCodes options = Codes codes).
Proof.
  assert (Hsent : sendable method options ->
    forall f, (request method url options env).2 = Err f ->
    (exists e, f = Rejected e)
    \/ (f = Uncaught (ReferenceError "status") /\ status = Unbound
        /\ exists codes, successCodes options = Codes codes)).
  { intros Hcase f.
    destruct (request_call method url options env Hcase) as (h & Hrun & _).
    cbv zeta in Hrun. rewrite Hrun. apply callback_failures. }
  destruct (request_kinds method options)
    as [Hcase | [[Hm [b Hb]] | (Hg & Hh & Hc)]].
  - split; [split|split].
    + intros [e He]. destruct (Hsent Hcase _ He) as [[e' [=]] | [[=] _]].
    + intros [[Hm Hb] | (Hg & Hh & Hc)].
      * destruct Hcase as [(Hg & Hh & _) | Hnone]; [|done].
        destruct Hm; contradiction.
      * destruct Hcase as [(_ & _ & Hc') | Hnone]; [congruence|].
        rewrite Hnone in Hc. discriminate Hc.
    + intros e He. destruct (Hsent Hcase _ He) as [[e' [=]] | [[=] _]].
    + intros e He.
      destruct (Hsent Hcase _ He) as [[e' [=]] | ([= ->] & Hst & Hcodes)]. auto.
  - pose proof (request_body_refused transport userAgent status method url
                  options b env Hm Hb) as Hr.
    rewrite Hr. simpl. split; [split|split].
    + intros _. left. split; [exact Hm | congruence].
    + intros _. eauto.
    + intros e [= <-]. split; [reflexivity|]. split; [eauto|].
      intros Hg Hh. destruct Hm; contradiction.
    + intros e [=].
  - destruct (request_unconvertible transport userAgent status method url
                options env Hg Hh Hc) as [x Hr].
    rewrite Hr. simpl. split; [split|split].
    + intros _. right. auto.
    + intros _. eauto.
    + intros e [= <-]. split; [reflexivity|]. split; [|eauto].
      intros [Hm | Hm]; contradiction.
    + intros e [=].
Qed.

End RequestFacts.

Lemma reported_app (tr1 tr2 : list Event) :
  reported (tr1 ++ tr2) = reported tr1 ++ reported tr2.
Proof.
  induction tr1 as [|e tr1 IH]; [reflexivity|].
  destruct e; simpl; rewrite IH; reflexivity.
Qed.

Lemma completions_app (tr1 tr2 : list Event) :
  completions (tr1 ++ tr2) = (completions tr1 + completions tr2)%nat.
Proof.
  induction tr1 as [|e tr1 IH]; [reflexivity|].
  destruct e; simpl; rewrite IH; reflexivity.
Qed.

Lemma reported_debug (lines : list string) : reported (map Debug lines) = [].
Proof. induction lines as [|l lines IH]; [reflexivity | exact IH]. Qed.

Lemma completions_debug (lines : list string) : completions (map Debug lines) = O.
Proof. induction lines as [|l lines IH]; [reflexivity | exact IH]. Qed.

Section LoaderExtras.

Context {World Document T : Type}.
Variable transport : Call -> World -> Reply * World.
Variable userAgent : string.
Variable status : Binding.
Variable JSDOM : string -> string -> result Error Document.
Variable processor : Document -> string -> World -> result Error T * World.

#[local] Abbreviation request := (request World transport userAgent status).
#[local] Abbreviation func :=
  (func World transport userAgent status Document T JSDOM processor).
#[local] Abbreviation drain :=
  (drain World transport userAgent status Document T JSDOM processor).
#[local] Abbreviation processDocuments :=
  (processDocuments World transport userAgent status Document T JSDOM processor).
#[local] Abbreviation announce := (announce World).
#[local] Abbreviation notified := (notified World).

(** *** The result does not depend on what was observed before *)

Lemma prepare_pure (method : string) (options : Options) :
  exists r, forall env : Env World,
    prepare World userAgent method options env = (env, r).
Proof.
  unfold prepare. case_bool_decide.
  - destruct (body options); eexists; reflexivity.
  - destruct (body options) as [b|]; [|eexists; reflexivity].
    destruct (body_truthy (Some b)); [|eexists; reflexivity].
    destruct (stringify b); eexists; reflexivity.
Qed.

Lemma callback_pure (url : string) (options : Options) (reply : Reply)
    (env1 env2 : Env World) :
  (callback World status url options reply env1).2
  = (callback World status url options reply env2).2.
Proof.
  unfold callback, bind, throw, ret, when, Zotero_debug, emit, modify.
  destruct reply as [code | code rh rb]; [reflexivity|].
  destruct (successCodes options) as [| |codes]; [| |destruct status as [|v]];
    simpl; try reflexivity.
  - destruct ((200 <=? code) && (code <? 300)); simpl; [|reflexivity].
    destruct (debug options); reflexivity.
  - destruct (debug options); reflexivity.
  - destruct (includes codes v); simpl; [|reflexivity].
    destruct (debug options); reflexivity.
Qed.

Lemma request_world_only (method url : string) (options : Options)
    (env1 env2 : Env World) :
  world env1 = world env2 ->
  (request method url options env1).2 = (request method url options env2).2
  /\ world (request method url options env1).1
     = world (request method url options env2).1.
Proof.
  intros Hw. unfold HTTP.request, bind.
  destruct (prepare_pure method options) as [r Hr]. rewrite !Hr.
  destruct r as [[[b h] logBody] | f]; [|split; [reflexivity | exact Hw]].
  unfold Zotero_debug, emit, modify, send. simpl. rewrite Hw.
  destruct (transport _ _) as [reply w]. simpl.
  rewrite !callback_world. split; [apply callback_pure | reflexivity].
Qed.

Lemma func_world_only (url : string) (env1 env2 : Env World) :
  world env1 = world env2 ->
  (func url env1).2 = (func url env2).2
  /\ world (func url env1).1 = world (func url env2).1.
Proof.
  intros Hw. unfold HTTP.func, bind.
  destruct (request_world_only "GET" url document_options env1 env2 Hw)
    as [Hres Hworld].
  destruct (request "GET" url document_options env1) as [e1 r1].
  destruct (request "GET" url document_options env2) as [e2 r2].
  simpl in Hres, Hworld. subst r2.
  destruct r1 as [r|f]; [|split; [reflexivity | exact Hworld]].
  destruct (JSDOM (responseText r) url) as [dom|e];
    [|split; [reflexivity | exact Hworld]].
  unfold call_processor. rewrite Hworld.
  destruct (processor dom url (world e2)) as [[v|e] w]; split; reflexivity.
Qed.

Lemma notified_world (legacy : option Legacy) (e : Error) (env : Env World) :
  world (notified legacy e env) = world env.
Proof.
  unfold HTTP.notified. destruct legacy as [l|]; [|reflexivity].
  destruct (onError l); reflexivity.
Qed.

Lemma drain_world_only (legacy1 legacy2 : option Legacy) (urls : list string) :
  forall (acc : list T) (env1 env2 : Env World),
    world env1 = world env2 ->
    (drain legacy1 urls acc env1).2 = (drain legacy2 urls acc env2).2
    /\ world (drain legacy1 urls acc env1).1
       = world (drain legacy2 urls acc env2).1.
Proof.
  induction urls as [|url urls IH]; intros acc env1 env2 Hw.
  - split; [reflexivity | exact Hw].
  - destruct (func_world_only url env1 env2 Hw) as [Hres Hworld].
    destruct (func url env1) as [e1 r1] eqn:H1.
    destruct (func url env2) as [e2 r2] eqn:H2.
    simpl in Hres, Hworld. subst r2. destruct r1 as [v|f].
    + rewrite (drain_success _ _ _ _ _ _ _ _ _ _ _ _ H1),
        (drain_success _ _ _ _ _ _ _ _ _ _ _ _ H2).
      by apply IH.
    + rewrite (drain_failure _ _ _ _ _ _ _ _ _ _ _ _ H1),
        (drain_failure _ _ _ _ _ _ _ _ _ _ _ _ H2).
      simpl. rewrite !notified_world. split; [reflexivity | exact Hworld].
Qed.

Lemma announce_world (legacy : option Legacy) (env : Env World) :
  world (announce legacy env).1 = world env /\ (announce legacy env).2 = Ok tt.
Proof.
  unfold HTTP.announce, when, Zotero_debug, emit, modify, ret.
  case_bool_decide; split; reflexivity.
Qed.

(** What [processDocuments] comes to, in terms of the loop. *)
Lemma processDocuments_unfold (urls : Urls) (legacy : option Legacy)
    (env : Env World) :
  processDocuments urls legacy env
  = match drain legacy
            match urls with One url => [url] | Many urls => urls end
            [] (announce legacy env).1 with
    | (env', Ok rs) =>
        (if match legacy with Some l => onDone l | None => false end
         then {| world := world env'; trace := trace env' ++ [OnDone] |}
         else env',
         Ok rs)
    | (env', Err f) => (env', Err f)
    end.
Proof.
  unfold HTTP.processDocuments, bind.
  destruct (announce_world legacy env) as [_ Hok].
  destruct (announce legacy env) as [env0 r0]. simpl in Hok. subst r0.
  cbv beta iota zeta. cbn [fst].
  destruct (drain legacy _ [] env0) as [env' [rs|f]]; [|reflexivity].
  unfold when, emit, modify, ret.
  destruct match legacy with Some l => onDone l | None => false end; reflexivity.
Qed.

(** X8. The promise of [processDocuments] settles the same way whether
    the call uses the old signature with callbacks or the new one: the
    same results or the same error, and the same effect on the world. The
    callbacks add nothing but their own calls. *)
Theorem processDocuments_legacy_same_result (urls : Urls) (legacy : option Legacy)
    (env : Env World) :
  (processDocuments urls legacy env).2 = (processDocuments urls None env).2
  /\ world (processDocuments urls legacy env).1
     = world (processDocuments urls None env).1.
Proof.
  rewrite !processDocuments_unfold.
  destruct (announce_world legacy env) as [Hw1 _].
  destruct (announce_world None env) as [Hw2 _].
  destruct (drain_world_only legacy None
              match urls with One url => [url] | Many urls => urls end []
              (announce legacy env).1 (announce None env).1) as [Hres Hworld];
    [congruence|].
  destruct (drain legacy _ [] (announce legacy env).1) as [e1 r1].
  destruct (drain None _ [] (announce None env).1) as [e2 r2].
  simpl in Hres, Hworld. subst r2. destruct r1 as [rs|f]; [|split; auto].
  split; [reflexivity|].
  destruct match legacy with Some l => onDone l | None => false end; exact Hworld.
Qed.

(** *** The legacy callbacks *)

Lemma func_callbacks (url : string) (env : Env World) :
  reported (trace (func url env).1) = reported (trace env)
  /\ completions (trace (func url env).1) = completions (trace env).
Proof.
  destruct (func_trace transport userAgent status JSDOM processor url env)
    as (h & t & b & lines & tail & -> & Htail & _).
  rewrite reported_app, completions_app. simpl.
  rewrite reported_app, completions_app, reported_debug, completions_debug.
  destruct Htail as [-> | ->]; simpl; rewrite app_nil_r; split; [done | lia | done | lia].
Qed.

Lemma drain_callbacks (legacy : option Legacy) (urls : list string) :
  forall (acc : list T) (env : Env World),
    completions (trace (drain legacy urls acc env).1) = completions (trace env)
    /\ reported (trace (drain legacy urls acc env).1)
       = reported (trace env)
         ++ match (drain legacy urls acc env).2 with
            | Ok _ => []
            | Err f => if wants_onError legacy then [error_of f] else []
            end.
Proof.
  induction urls as [|url urls IH]; intros acc env.
  - simpl. by rewrite app_nil_r.
  - destruct (func_callbacks url env) as [Hrep Hcom].
    destruct (func url env) as [env1 [v|f]] eqn:Hf; simpl in Hrep, Hcom.
    + rewrite (drain_success _ _ _ _ _ _ _ _ _ _ _ _ Hf).
      destruct (IH (acc ++ [v]) env1) as [-> ->]. by rewrite Hrep, Hcom.
    + rewrite (drain_failure _ _ _ _ _ _ _ _ _ _ _ _ Hf). simpl.
      unfold HTTP.notified, wants_onError. destruct legacy as [l|].
      * destruct (onError l); simpl.
        -- rewrite reported_app, completions_app, Hrep, Hcom. simpl.
           split; [lia | reflexivity].
        -- by rewrite Hrep, Hcom, app_nil_r.
      * by rewrite Hrep, Hcom, app_nil_r.
Qed.

(** X9. With the old signature: when the call succeeds [onDone] is called
    exactly once and [onError] never; when it fails [onError] is called
    exactly once, with the error the promise is rejected with, and
    [onDone] never. A callback that is not given is not called, and with
    the new signature neither is. *)
Theorem processDocuments_callbacks (urls : Urls) (legacy : option Legacy)
    (w : World) :
  match (processDocuments urls legacy (fresh w)).2 with
  | Ok _ =>
      reported (trace (processDocuments urls legacy (fresh w)).1) = []
      /\ completions (trace (processDocuments urls legacy (fresh w)).1)
         = match legacy with
           | Some l => if onDone l then 1%nat else 0%nat
           | None => 0%nat
           end
  | Err f =>
      reported (trace (processDocuments urls legacy (fresh w)).1)
      = match legacy with
        | Some l => if onError l then [error_of f] else []
        | None => []
        end
      /\ completions (trace (processDocuments urls legacy (fresh w)).1) = 0%nat
  end.
Proof.
  rewrite processDocuments_unfold.
  assert (Hann : reported (trace (announce legacy (fresh w)).1) = []
                 /\ completions (trace (announce legacy (fresh w)).1) = 0%nat).
  { unfold HTTP.announce, when, Zotero_debug, emit, modify, ret.
    case_bool_decide; split; reflexivity. }
  destruct Hann as [Hrep Hcom].
  destruct (drain_callbacks legacy
              match urls with One url => [url] | Many urls => urls end []
              (announce legacy (fresh w)).1) as [Hc Hr].
  rewrite Hrep in Hr. rewrite Hcom in Hc.
  destruct (drain legacy _ [] (announce legacy (fresh w)).1) as [env' [rs|f]];
    simpl in Hc, Hr |- *.
  - destruct legacy as [l|]; [destruct (onDone l)|]; simpl;
      rewrite ?reported_app, ?completions_app, Hr, Hc; split; reflexivity.
  - rewrite Hr, Hc. unfold wants_onError.
    destruct legacy as [l|]; [destruct (onError l)|]; split; reflexivity.
Qed.

(** *** Successful batches *)

(** The accumulated results are only carried along. *)
Lemma drain_acc (legacy : option Legacy) (urls : list string) :
  forall (acc : list T) (env : Env World),
    drain legacy urls acc env
    = match drain legacy urls [] env with
      | (env', Ok rs) => (env', Ok (acc ++ rs))
      | (env', Err f) => (env', Err f)
      end.
Proof.
  induction urls as [|url urls IH]; intros acc env.
  - simpl. unfold ret. by rewrite app_nil_r.
  - destruct (func url env) as [env1 [v|f]] eqn:Hf.
    + rewrite !(drain_success _ _ _ _ _ _ _ _ _ _ _ _ Hf).
      rewrite (IH (acc ++ [v])), (IH ([] ++ [v])).
      destruct (drain legacy urls [] env1) as [env' [rs|f]]; [|reflexivity].
      by rewrite <- app_assoc.
    + by rewrite !(drain_failure _ _ _ _ _ _ _ _ _ _ _ _ Hf).
Qed.

(** The environment a queue is drained to does not depend on the
    results accumulated before. *)
Lemma drain_env (legacy : option Legacy) (urls : list string)
    (acc : list T) (env : Env World) :
  (drain legacy urls acc env).1 = (drain legacy urls [] env).1.
Proof.
  rewrite drain_acc.
  destruct (drain legacy urls [] env) as [env' [rs|f]]; reflexivity.
Qed.

Lemma processDocuments_env (urls : list string) (env : Env World) :
  (processDocuments (Many urls) None env).1 = (drain None urls [] env).1.
Proof.
  rewrite processDocuments_unfold. change (announce None env).1 with env.
  destruct (drain None urls [] env) as [env' [rs|f]]; reflexivity.
Qed.

(** The results of a drained queue are those of its elements, in the
    order of the URLs: the result at a position is the value of the
    element for the URL at that position, run where the elements before it
    have left the environment. *)
Lemma drain_results (urls : list string) :
  forall (acc rs : list T) (env env' : Env World),
    drain None urls acc env = (env', Ok rs) ->
    forall (i : nat) (url : string),
      urls !! i = Some url ->
      exists v,
        rs !! (length acc + i)%nat = Some v
        /\ (func url (drain None (take i urls) [] env).1).2 = Ok v.
Proof.
  induction urls as [|url0 urls IH]; intros acc rs env env' Hd i url Hi;
    [discriminate|].
  destruct (func url0 env) as [env1 [v0|f]] eqn:Hf.
  - rewrite (drain_success _ _ _ _ _ _ _ _ _ _ _ _ Hf) in Hd.
    destruct i as [|j]; simpl in Hi.
    + injection Hi as <-. exists v0. simpl. rewrite Hf. split; [|reflexivity].
      destruct (drain_complete _ _ _ _ _ _ _ _ _ _ _ Hd)
        as (_ & _ & new & -> & _).
      rewrite Nat.add_0_r, <- app_assoc.
      rewrite lookup_app_r by lia. by rewrite Nat.sub_diag.
    + destruct (IH _ _ _ _ Hd j url Hi) as (v & Hv & Hval).
      exists v. split.
      * rewrite length_app, <- Nat.add_assoc in Hv. exact Hv.
      * simpl take. rewrite (drain_success _ _ _ _ _ _ _ _ _ _ _ _ Hf).
        by rewrite drain_env.
  - rewrite (drain_failure _ _ _ _ _ _ _ _ _ _ _ _ Hf) in Hd. discriminate.
Qed.

(** X10. When [processDocuments] succeeds it returns one result for each
    URL, in the order of the URLs: the result at each position is the
    value, in this run, of the element for the URL at that position (the
    request, the document and the processor), run in the world that the
    loading of the URLs before it has left. Every URL was requested once,
    in order, and each document was processed before the next URL was
    requested. An empty array gives an empty array without any request. *)
Theorem processDocuments_results_in_order (urls : list string)
    (legacy : option Legacy) (env : Env World) (rs : list T) :
  (processDocuments (Many urls) legacy env).2 = Ok rs ->
  length rs = length urls
  /\ (forall (i : nat) (url : string),
        urls !! i = Some url ->
        exists v,
          rs !! i = Some v
          /\ (func url (processDocuments (Many (take i urls)) None env).1).2
             = Ok v)
  /\ requested (trace (processDocuments (Many urls) legacy env).1)
     = requested (trace env) ++ urls
  /\ activity (trace (processDocuments (Many urls) legacy env).1)
     = activity (trace env) ++ serial urls.
Proof.
  rewrite processDocuments_unfold.
  destruct (announce_observed legacy env) as (_ & Hreq0 & Hact0).
  destruct (announce_world legacy env) as [Hw _].
  destruct (drain_world_only legacy None urls [] (announce legacy env).1 env Hw)
    as [Hsame _].
  destruct (drain legacy urls [] (announce legacy env).1) as [env' [rs'|f]] eqn:Hd;
    [|discriminate].
  intros [= ->].
  destruct (drain_complete _ _ _ _ _ _ _ _ _ _ _ Hd)
    as (Hreq & Hact & new & Hnew & Hlen).
  simpl in Hnew. subst new.
  split; [exact Hlen|]. split.
  - intros i url Hi.
    destruct (drain None urls [] env) as [env2 r2] eqn:Hd2.
    simpl in Hsame. subst r2.
    destruct (drain_results urls [] rs env env2 Hd2 i url Hi) as (v & Hv & Hval).
    exists v. split; [exact Hv|]. by rewrite processDocuments_env.
  - simpl.
    destruct match legacy with Some l => onDone l | None => false end; simpl;
      rewrite ?requested_app, ?activity_app, ?app_nil_r, Hreq, Hact, Hreq0, Hact0;
      split; reflexivity.
Qed.

(** X11. Batches compose. If loading [before] succeeds, then loading
    [before ++ after] in one call is loading [after] in a second call
    that starts where the first ended: it fails with the error of the
    second call, or returns the results of the first followed by those of
    the second. *)
Theorem processDocuments_concat (before after : list string)
    (env env1 : Env World) (rs1 : list T) :
  processDocuments (Many before) None env = (env1, Ok rs1) ->
  processDocuments (Many (before ++ after)) None env
  = match processDocuments (Many after) None env1 with
    | (env2, Ok rs2) => (env2, Ok (rs1 ++ rs2))
    | (env2, Err f) => (env2, Err f)
    end.
Proof.
  rewrite !processDocuments_unfold.
  change (announce None env).1 with env. change (announce None env1).1 with env1.
  destruct (drain None before [] env) as [e [rs|f]] eqn:Hd; [|discriminate].
  intros [= -> ->].
  rewrite (drain_app _ _ _ _ _ _ _ _ _ _ _ _ Hd), drain_acc.
  destruct (drain None after [] env1) as [env2 [rs2|f]]; reflexivity.
Qed.

(** *** Pages that are not delivered *)

Lemma request_activity (method url : string) (options : Options)
    (env : Env World) :
  sendable method options ->
  activity (trace (request method url options env).1)
  = activity (trace env) ++ [Fetch url].
Proof.
  intros Hcase.
  destruct (request_call transport userAgent status method url options env Hcase)
    as (h & Hrun & _).
  cbv zeta in Hrun. rewrite Hrun, callback_log. simpl.
  by rewrite !activity_app, activity_debug, app_nil_r.
Qed.

Lemma func_failed_request (url : string) (env : Env World) (f : Failure) :
  (request "GET" url document_options env).2 = Err f ->
  func url env = ((request "GET" url document_options env).1, Err f).
Proof.
  intros Hr. unfold HTTP.func, bind.
  destruct (request "GET" url document_options env) as [env1 r].
  simpl in Hr. by subst r.
Qed.

(** X12. A page answered with a status code outside 200 to 299 is not
    parsed and the processor is not called for it: the call fails with a
    [StatusError] that carries the URL, the status code and the text of
    the response. *)
Theorem processDocuments_rejects_error_page (url : string)
    (legacy : option Legacy) (env : Env World) (code : Z)
    (h : gmap string string) (b : string) :
  (forall c, (transport c (world env)).1 = Responded code h b) ->
  ~ 200 <= code < 300 ->
  (processDocuments (One url) legacy env).2
  = Err (Rejected (StatusError url code b))
  /\ activity (trace (processDocuments (One url) legacy env).1)
     = activity (trace env) ++ [Fetch url].
Proof.
  intros Ht Hcode. rewrite processDocuments_unfold.
  destruct (announce_world legacy env) as [Hw _].
  destruct (announce_observed legacy env) as (_ & _ & Hact0).
  assert (Hsend : sendable "GET" document_options) by (by right).
  assert (Hres : (request "GET" url document_options (announce legacy env).1).2
                 = Err (Rejected (StatusError url code b))).
  { rewrite (request_default_codes _ _ _ _ _ _ _ code h b Hsend eq_refl);
      [|by rewrite Hw].
    destruct ((200 <=? code) && (code <? 300)) eqn:Hin; [|reflexivity].
    apply andb_true_iff in Hin as [H1 H2].
    apply Z.leb_le in H1. apply Z.ltb_lt in H2. lia. }
  pose proof (func_failed_request url _ _ Hres) as Hf.
  rewrite (drain_failure _ _ _ _ _ _ _ _ _ _ _ _ Hf). simpl.
  split; [reflexivity|].
  destruct (notified_observed legacy (StatusError url code b)
              (request "GET" url document_options (announce legacy env).1).1)
    as [_ ->].
  by rewrite (request_activity _ _ _ _ Hsend), Hact0.
Qed.

End LoaderExtras.

Section DeprecatedFacts.

Context {World : Type}.
Variable transport : Call -> World -> Reply * World.
Variable userAgent : string.
Variable status : Binding.

#[local] Abbreviation request := (request World transport userAgent status).
#[local] Abbreviation doGet := (doGet World transport userAgent status).
#[local] Abbreviation doPost := (doPost World transport userAgent status).

(** Without [successCodes] a request that can be sent resolves with a
    status code from 200 to 299 or is rejected. *)
Lemma request_unset_outcome (method url : string) (options : Options)
    (env : Env World) :
  sendable method options ->
  successCodes options = Unset ->
  (exists r, (request method url options env).2 = Ok r
             /\ 200 <= statusCode r < 300)
  \/ (exists e, (request method url options env).2 = Err (Rejected e)).
Proof.
  intros Hcase Hs.
  destruct (request_call transport userAgent status method url options env Hcase)
    as (h & Hrun & _).
  cbv zeta in Hrun. rewrite Hrun.
  destruct (transport _ (world env)) as [reply w]. simpl.
  destruct reply as [code | code rh rb]; [right; by eexists|].
  unfold HTTP.callback, bind. rewrite Hs. simpl.
  destruct ((200 <=? code) && (code <? 300)) eqn:Hin; simpl;
    [|right; by eexists].
  left. apply andb_true_iff in Hin as [H1 H2].
  apply Z.leb_le in H1. apply Z.ltb_lt in H2.
  unfold when, Zotero_debug, emit, modify.
  destruct (debug options); eexists; (split; [reflexivity | simpl; lia]).
Qed.

Lemma deprecated_calls_back (notice method url : string) (options : Options)
    (env : Env World) :
  sendable method options ->
  successCodes options = Unset ->
  calls_back_once
    (deprecated World transport userAgent status notice method url options env).2.
Proof.
  intros Hcase Hs. unfold deprecated.
  destruct (request_unset_outcome method url options
              (Zotero_debug World notice env).1 Hcase Hs)
    as [(r & Hr & Hcode) | (e & He)];
    destruct (HTTP.request _ _ _ _ _ _ _ _) as [env1 res];
    simpl in *; subst res; simpl.
  - split; [reflexivity|]. eexists. split; [reflexivity|]. by split.
  - split; [reflexivity|]. eexists. split; [reflexivity|]. by exists e.
Qed.

(** X13. [doGet] never throws, whatever the URL and the headers and
    whatever the transport answers: it returns [true] and [onDone] is
    called exactly once, with the response when its status code is from
    200 to 299 and otherwise with the [status] and the [responseText] of
    the error, which stays behind as a rejection that nothing handles.
    [doPost] does the same for every body that is sent: null, a falsy
    value, a string, or a value with a JSON text. With a truthy body that
    has no JSON text [doPost] throws the [TypeError] of the conversion:
    the transport is not called, [onDone] is never called and no promise
    is left behind. *)
Theorem deprecated_calls_onDone_once (url : string) (body : option Body)
    (headers : option (gmap string string)) (env : Env World) :
  calls_back_once (doGet url headers env).2
  /\ (converts body = true -> calls_back_once (doPost url body headers env).2)
  /\ (converts body = false ->
      (exists expression,
         returned (doPost url body headers env).2
         = Err (TypeError expression))
      /\ onDone_calls (doPost url body headers env).2 = []
      /\ unhandled (doPost url body headers env).2 = None
      /\ calls (trace (doPost url body headers env).1) = calls (trace env)).
Proof.
  split; [|split].
  - apply deprecated_calls_back; [by right | reflexivity].
  - intros Hc. apply deprecated_calls_back; [|reflexivity].
    left. repeat split; [discriminate | discriminate | exact Hc].
  - intros Hc. unfold HTTP.doPost, deprecated.
    match goal with
    | |- context [HTTP.request _ _ _ _ ?m ?u ?o ?e] =>
        destruct (request_unconvertible transport userAgent status m u o e)
          as [x ->]; [discriminate | discriminate | exact Hc |]
    end.
    simpl. split; [eauto|]. split; [reflexivity|]. split; [reflexivity|].
    rewrite calls_app. simpl. by rewrite app_nil_r.
Qed.

(** X14. What [onDone] learns of a failure. When the transport fails
    (no connection, a timeout) the object given to [onDone] has neither
    [status] nor [responseText]; when the server answers with a status
    code outside 200 to 299 it has both. *)
Theorem doGet_failure_report (url : string)
    (headers : option (gmap string string)) (env : Env World) :
  (forall code,
     (forall c, (transport c (world env)).1 = Failed code) ->
     onDone_calls (doGet url headers env).2 = [DoneFailure None None]
     /\ unhandled (doGet url headers env).2 = Some (TransportError code))
  /\ (forall code h b,
        (forall c, (transport c (world env)).1 = Responded code h b) ->
        ~ 200 <= code < 300 ->
        onDone_calls (doGet url headers env).2
        = [DoneFailure (Some code) (Some b)]
        /\ unhandled (doGet url headers env).2 = Some (StatusError url code b)).
Proof.
  split.
  - intros code Ht. unfold HTTP.doGet, deprecated.
    match goal with
    | |- context [HTTP.request _ _ _ _ ?m ?u ?o ?e] =>
        pose proof (request_forwards_transport_error transport userAgent status
                      m u o e code) as Hr
    end.
    destruct (HTTP.request _ _ _ _ _ _ _ _) as [env1 res]. simpl in Hr.
    rewrite Hr; [split; reflexivity | by right | exact Ht].
  - intros code h b Ht Hcode. unfold HTTP.doGet, deprecated.
    match goal with
    | |- context [HTTP.request _ _ _ _ ?m ?u ?o ?e] =>
        pose proof (request_default_codes transport userAgent status
                      m u o e code h b) as Hr
    end.
    destruct (HTTP.request _ _ _ _ _ _ _ _) as [env1 res]. simpl in Hr.
    rewrite Hr; [|by right | reflexivity | exact Ht].
    destruct ((200 <=? code) && (code <? 300)) eqn:Hin; [|split; reflexivity].
    apply andb_true_iff in Hin as [H1 H2].
    apply Z.leb_le in H1. apply Z.ltb_lt in H2. lia.
Qed.

End DeprecatedFacts.

(** The witness of X1: a POST request with an object as body, which is
    sent as its JSON text, and one with the number zero, which is sent as
    it is. *)
Lemma request_calls_transport_once_witness :
  sendable "POST" Samples.upload
  /\ (exists h,
        calls (trace (HTTP.request unit (Samples.answering 500 "down")
                        "translation-server" Unbound "POST" "http://example.org/"
                        Samples.upload (fresh tt)).1)
        = [] ++ [MkCall "http://example.org/" "POST" h 15000
                   (Some (BodyString "{}"))])
  /\ sendable "POST" (Samples.with_body Samples.zero)
  /\ (exists h,
        calls (trace (HTTP.request unit (Samples.answering 200 "ok")
                        "translation-server" Unbound "POST" "http://example.org/"
                        (Samples.with_body Samples.zero) (fresh tt)).1)
        = [] ++ [MkCall "http://example.org/" "POST" h 15000
                   (Some Samples.zero)]).
Proof.
  assert (Hs : sendable "POST" Samples.upload).
  { left. split; [discriminate|]. split; [discriminate | reflexivity]. }
  assert (Hz : sendable "POST" (Samples.with_body Samples.zero)).
  { left. split; [discriminate|]. split; [discriminate | reflexivity]. }
  split; [exact Hs|]. split.
  - destruct (request_calls_transport_once (Samples.answering 500 "down")
                "translation-server" Unbound "POST" "http://example.org/"
                Samples.upload (fresh tt) Hs) as (h & Hcalls & _).
    exists h. exact Hcalls.
  - split; [exact Hz|].
    destruct (request_calls_transport_once (Samples.answering 200 "ok")
                "translation-server" Unbound "POST" "http://example.org/"
                (Samples.with_body Samples.zero) (fresh tt) Hz)
      as (h & Hcalls & _).
    exists h. exact Hcalls.
Defined.

(** The witness of X2: the caller names no user agent. *)
Lemma request_sends_user_agent_witness :
  exists c,
    c ∈ calls (trace (HTTP.request unit (Samples.answering 200 "ok")
                        "translation-server" Unbound "GET" "http://example.org/"
                        (Samples.with_codes Unset) (fresh tt)).1)
    /\ call_headers c !! "User-Agent" = Some "translation-server".
Proof.
  assert (Hex : exists c,
    c ∈ calls (trace (HTTP.request unit (Samples.answering 200 "ok")
                        "translation-server" Unbound "GET" "http://example.org/"
                        (Samples.with_codes Unset) (fresh tt)).1)).
  { eexists. vm_compute. left. }
  destruct Hex as [c Hc]. exists c. split; [exact Hc|].
  exact (request_sends_user_agent (Samples.answering 200 "ok")
           "translation-server" Unbound "GET" "http://example.org/"
           (Samples.with_codes Unset) tt c Hc).
Defined.

(** The witness of X3: the multipart content type of an upload is not
    sent. *)
Lemma request_content_type_witness :
  exists c,
    c ∈ calls (trace (HTTP.request unit (Samples.answering 200 "ok")
                        "translation-server" Unbound "POST" "http://example.org/"
                        Samples.upload (fresh tt)).1)
    /\ headers Samples.upload !! "Content-Type" = Some "multipart/form-data"
    /\ call_headers c !! "Content-Type" = None.
Proof.
  assert (Hex : exists c,
    c ∈ calls (trace (HTTP.request unit (Samples.answering 200 "ok")
                        "translation-server" Unbound "POST" "http://example.org/"
                        Samples.upload (fresh tt)).1)).
  { eexists. vm_compute. left. }
  destruct Hex as [c Hc]. exists c. split; [exact Hc|].
  split; [reflexivity|].
  destruct (request_content_type (Samples.answering 200 "ok")
              "translation-server" Unbound "POST" "http://example.org/"
              Samples.upload tt c Hc) as (_ & _ & Hmultipart & _).
  apply Hmultipart; reflexivity.
Defined.

(** The witness of X5: a page that is missing. *)
Lemma request_default_classification_witness :
  sendable "GET" (Samples.with_codes Unset)
  /\ ~ 200 <= 404 < 300
  /\ (HTTP.request unit (Samples.answering 404 "gone") "translation-server"
        Unbound "GET" "http://example.org/" (Samples.with_codes Unset)
        (fresh tt)).2
     = Err (Rejected (StatusError "http://example.org/" 404 "gone")).
Proof.
  assert (Hs : sendable "GET" (Samples.with_codes Unset)) by (by right).
  assert (Hcode : ~ 200 <= 404 < 300) by lia.
  split; [exact Hs|]. split; [exact Hcode|].
  destruct (request_default_classification (Samples.answering 404 "gone")
              "translation-server" Unbound "GET" "http://example.org/"
              (Samples.with_codes Unset) (fresh tt) 404 ∅ "gone" Hs eq_refl
              (fun c => eq_refl)) as [_ Hreject].
  exact (Hreject Hcode).
Defined.

(** The witness of X6: a server error that counts as success. *)
Lemma request_allow_all_resolves_witness :
  sendable "GET" (Samples.with_codes AllowAll)
  /\ (HTTP.request unit (Samples.answering 500 "down") "translation-server"
        Unbound "GET" "http://example.org/" (Samples.with_codes AllowAll)
        (fresh tt)).2
     = Ok {| responseText := "down"; responseHeaders := ∅; statusCode := 500 |}.
Proof.
  assert (Hs : sendable "GET" (Samples.with_codes AllowAll)) by (by right).
  split; [exact Hs|].
  exact (request_allow_all_resolves (Samples.answering 500 "down")
           "translation-server" Unbound "GET" "http://example.org/"
           (Samples.with_codes AllowAll) (fresh tt) 500 ∅ "down" Hs eq_refl
           (fun c => eq_refl)).
Defined.

(** The witness of X7: a POST request whose body is a function, for
    which [JSON.stringify] returns [undefined], throws. *)
Lemma request_failure_kinds_witness :
  converts (Some Samples.handler) = false
  /\ exists e,
       (HTTP.request unit (Samples.answering 200 "ok") "translation-server"
          Unbound "POST" "http://example.org/"
          (Samples.with_body Samples.handler) (fresh tt)).2
       = Err (Thrown e).
Proof.
  split; [reflexivity|].
  destruct (request_failure_kinds (Samples.answering 200 "ok")
              "translation-server" Unbound "POST" "http://example.org/"
              (Samples.with_body Samples.handler) (fresh tt)) as [[_ Hthrows] _].
  apply Hthrows. right.
  split; [discriminate|]. split; [discriminate | reflexivity].
Defined.

(** The witness of X13: [doPost] with an object that refers to itself
    throws and never calls [onDone]. *)
Lemma deprecated_calls_onDone_once_witness :
  converts (Some Samples.circular) = false
  /\ (exists expression,
        returned (HTTP.doPost unit (Samples.answering 200 "ok")
                    "translation-server" Unbound "http://example.org/"
                    (Some Samples.circular) None (fresh tt)).2
        = Err (TypeError expression))
  /\ onDone_calls (HTTP.doPost unit (Samples.answering 200 "ok")
                     "translation-server" Unbound "http://example.org/"
                     (Some Samples.circular) None (fresh tt)).2
     = [].
Proof.
  split; [reflexivity|].
  destruct (deprecated_calls_onDone_once (Samples.answering 200 "ok")
              "translation-server" Unbound "http://example.org/"
              (Some Samples.circular) None (fresh tt)) as (_ & _ & Hthrows).
  destruct (Hthrows eq_refl) as (Hreturned & Hnone & _).
  exact (conj Hreturned Hnone).
Defined.

(** The witness of X10: two pages that hold their own URLs, measured; the
    second result is the length of the second URL. *)
Lemma processDocuments_results_in_order_witness :
  (HTTP.processDocuments unit Samples.echo "translation-server" Unbound
     string nat Samples.source_text Samples.measure
     (Many ["http://b.example/"; "http://cc.example/"]) None (fresh tt)).2
  = Ok [17%nat; 18%nat]
  /\ (exists v,
        [17%nat; 18%nat] !! 1%nat = Some v
        /\ (HTTP.func unit Samples.echo "translation-server" Unbound
              string nat Samples.source_text Samples.measure
              "http://cc.example/"
              (HTTP.processDocuments unit Samples.echo "translation-server"
                 Unbound string nat Samples.source_text Samples.measure
                 (Many (take 1 ["http://b.example/"; "http://cc.example/"]))
                 None (fresh tt)).1).2
           = Ok v)
  /\ requested
       (trace (HTTP.processDocuments unit Samples.echo "translation-server"
                 Unbound string nat Samples.source_text Samples.measure
                 (Many ["http://b.example/"; "http://cc.example/"]) None
                 (fresh tt)).1)
     = [] ++ ["http://b.example/"; "http://cc.example/"].
Proof.
  assert (Hok : (HTTP.processDocuments unit Samples.echo "translation-server"
                   Unbound string nat Samples.source_text Samples.measure
                   (Many ["http://b.example/"; "http://cc.example/"]) None
                   (fresh tt)).2 = Ok [17%nat; 18%nat])
    by (vm_compute; reflexivity).
  split; [exact Hok|].
  destruct (processDocuments_results_in_order Samples.echo "translation-server"
              Unbound Samples.source_text Samples.measure
              ["http://b.example/"; "http://cc.example/"] None (fresh tt)
              [17%nat; 18%nat] Hok) as (_ & Hnth & Hreq & _).
  split; [exact (Hnth 1%nat "http://cc.example/" eq_refl) | exact Hreq].
Defined.

(** The witness of X12: a page that is missing is not processed. *)
Lemma processDocuments_rejects_error_page_witness :
  ~ 200 <= 404 < 300
  /\ (HTTP.processDocuments unit (Samples.answering 404 "gone")
        "translation-server" Unbound string nat Samples.source_text
        Samples.measure (One "http://example.org/") None (fresh tt)).2
     = Err (Rejected (StatusError "http://example.org/" 404 "gone"))
  /\ activity
       (trace (HTTP.processDocuments unit (Samples.answering 404 "gone")
                 "translation-server" Unbound string nat Samples.source_text
                 Samples.measure (One "http://example.org/") None (fresh tt)).1)
     = [] ++ [Fetch "http://example.org/"].
Proof.
  assert (Hcode : ~ 200 <= 404 < 300) by lia.
  split; [exact Hcode|].
  exact (processDocuments_rejects_error_page (Samples.answering 404 "gone")
           "translation-server" Unbound Samples.source_text Samples.measure
           "http://example.org/" None (fresh tt) 404 ∅ "gone"
           (fun c => eq_refl) Hcode).
Defined.

(** The witness of X11: one page, then another. *)
Lemma processDocuments_concat_witness :
  exists env1,
    Samples.load (Many ["http://b.example/"]) None (fresh tt)
    = (env1, Ok [13%nat])
    /\ (Samples.load (Many (["http://b.example/"] ++ ["http://c.example/"]))
          None (fresh tt)).2
       = Ok ([13%nat] ++ [13%nat]).
Proof.
  assert (H : Samples.load (Many ["http://b.example/"]) None (fresh tt)
              = ((Samples.load (Many ["http://b.example/"]) None (fresh tt)).1,
                 Ok [13%nat]))
    by (vm_compute; reflexivity).
  eexists. split; [exact H|].
  unfold Samples.load in *.
  rewrite (processDocuments_concat
             (Samples.unreachable "http://a.example/") "translation-server"
             Unbound Samples.source_text Samples.measure
             ["http://b.example/"] ["http://c.example/"] (fresh tt) _
             [13%nat] H).
  vm_compute. reflexivity.
Defined.

(** The witness of X14: no connection, and a page that is missing. *)
Lemma doGet_failure_report_witness :
  onDone_calls
    (HTTP.doGet unit (Samples.failing "ECONNREFUSED") "translation-server"
       Unbound "http://example.org/" None (fresh tt)).2
  = [DoneFailure None None]
  /\ onDone_calls
       (HTTP.doGet unit (Samples.answering 404 "gone") "translation-server"
          Unbound "http://example.org/" None (fresh tt)).2
     = [DoneFailure (Some 404) (Some "gone")].
Proof.
  split.
  - destruct (doGet_failure_report (Samples.failing "ECONNREFUSED")
                "translation-server" Unbound "http://example.org/" None
                (fresh tt)) as [Hfail _].
    exact (proj1 (Hfail "ECONNREFUSED" (fun c => eq_refl))).
  - destruct (doGet_failure_report (Samples.answering 404 "gone")
                "translation-server" Unbound "http://example.org/" None
                (fresh tt)) as [_ Hstatus].
    assert (Hcode : ~ 200 <= 404 < 300) by lia.
    exact (proj1 (Hstatus 404 ∅ "gone" (fun c => eq_refl) Hcode)).
Defined.

End HTTPExtras.

(** * Further properties of the web endpoint *)

Module WebEndpointExtras.
Import WebEndpoint WebEndpointProps.

(** A request for a URL that starts with [http:] or [https:] opens a
    session and leaves the store as it is. *)
Lemma handle_enter_url (r : Request) (st : State) (url : string) :
  content_ok r = true -> body r = Text url -> match_http url = true ->
  handle_enter r st
  = (with_timers (S (timers st)) st,
     Ok (WebSession (fresh_id r) (clock r) (rctx r) (rnext r) (Text url))).
Proof.
  intros Hc Hb Hm. unfold handle_enter, bind, ctx_assert, setTimeout_gc.
  rewrite Hc, Hb. unfold when, modify, gets, ret. simpl.
  destruct url as [|a url]; [discriminate|]. simpl. rewrite Hm. reflexivity.
Qed.


Lemma handle_enter_timers (r : Request) (st : State) :
  timers (handle_enter r st).1
  = if content_ok r then S (timers st) else timers st.
Proof.
  unfold handle_enter, bind, ctx_assert, setTimeout_gc, ctx_throw, throw,
    when, modify, gets, ret.
  destruct (content_ok r); [|reflexivity].
  destruct (body r) as [|url|sessionID]; simpl; [reflexivity| |].
  - destruct (String.eqb url ""); simpl; [reflexivity|].
    destruct (match_http url); reflexivity.
  - destruct (id_truthy sessionID); simpl; [|reflexivity].
    destruct (get_property _ _) as [|s|k']; simpl; [reflexivity|reflexivity|].
    destruct (String.eqb k' "__proto__"); reflexivity.
Qed.

(** X16. A request with another content type than plain text or JSON is
    refused with 415 before anything else happens: no sweep is scheduled
    and the state is untouched. Every other request schedules exactly one
    sweep, accepted or not, and every HTTP error it can be refused with
    has status 400. *)
Theorem handle_enter_refusals (r : Request) (st : State) :
  (content_ok r = false ->
     handle_enter r st = (st, Err (HttpError 415 "Unsupported Media Type")))
  /\ (content_ok r = true ->
      timers (handle_enter r st).1 = S (timers st)
      /\ forall status message,
           (handle_enter r st).2 = Err (HttpError status message) ->
           status = 400).
Proof.
  split.
  - intros Hc. unfold handle_enter, bind, ctx_assert. rewrite Hc. reflexivity.
  - intros Hc. split; [by rewrite handle_enter_timers, Hc|].
    intros status message.
    unfold handle_enter, bind, ctx_assert, setTimeout_gc, ctx_throw, throw,
      when, modify, gets, ret.
    rewrite Hc. simpl.
    destruct (body r) as [|url|sessionID]; simpl; [by intros [= <- _]| |].
    + destruct (String.eqb url ""); simpl; [by intros [= <- _]|].
      destruct (match_http url); simpl; [discriminate | by intros [= <- _]].
    + destruct (id_truthy sessionID); simpl; [|by intros [= <- _]].
      destruct (get_property _ _) as [|s|k']; simpl;
        [by intros [= <- _] | discriminate |].
      destruct (String.eqb k' "__proto__"); discriminate.
Qed.

(** ** Sweeps and requests *)

Lemma handle_leave_timers (session : Session) (o : Outcome) (st : State) :
  timers (handle_leave session o st) = timers st.
Proof.
  destruct o as [status|]; [|reflexivity]. simpl.
  destruct (status =? 300); [|reflexivity].
  unfold set_property. destruct (String.eqb _ _); reflexivity.
Qed.

Lemma next_tick (f : nat) :
  (if Z.of_nat f mod 3 + 1 =? 3 then 0 else Z.of_nat f mod 3 + 1)
  = Z.of_nat (S f) mod 3.
Proof.
  rewrite Nat2Z.inj_succ. unfold Z.succ.
  pose proof (Z.mod_pos_bound (Z.of_nat f) 3 ltac:(lia)) as Hb.
  rewrite (Z.add_mod (Z.of_nat f) 1 3) by lia. change (1 mod 3) with 1.
  destruct (Z.of_nat f mod 3 + 1 =? 3) eqn:Hd.
  - apply Z.eqb_eq in Hd. rewrite Hd. reflexivity.
  - apply Z.eqb_neq in Hd. symmetry. apply Z.mod_small. lia.
Qed.

Lemma step_accounting (c : Config) (e : Event) (n : nat) :
  (timers (state c) <= n)%nat ->
  requestsSinceGC (state c) = Z.of_nat (n - timers (state c)) mod 3 ->
  (timers (state (step c e)) <= n + schedules e)%nat
  /\ requestsSinceGC (state (step c e))
     = Z.of_nat (n + schedules e - timers (state (step c e))) mod 3.
Proof.
  intros Hle Hcount. destruct e as [r | k o | now]; simpl.
  - pose proof (handle_enter_timers r (state c)) as Ht.
    pose proof (handle_enter_counter r (state c)) as Hr.
    destruct (handle_enter r (state c)) as [st [session | err]];
      simpl in Ht, Hr |- *; rewrite Ht, Hr, Hcount;
      (split; [|f_equal; f_equal]); destruct (content_ok r); lia.
  - rewrite Nat.add_0_r.
    destruct (awaiting c !! k) as [session|]; [|by split]. simpl.
    rewrite handle_leave_timers, handle_leave_counter. by split.
  - rewrite Nat.add_0_r.
    destruct (timers (state c)) as [|m] eqn:Hm; [by rewrite Hm|]. simpl.
    assert (Ht : timers (gc now (with_timers m (state c))) = m).
    { unfold gc. simpl. destruct (_ =? 3); reflexivity. }
    rewrite Ht. split; [lia|].
    replace (n - m)%nat with (S (n - S m)) by lia.
    rewrite <- next_tick, <- Hcount. unfold gc. simpl.
    destruct (requestsSinceGC (state c) + 1 =? 3); reflexivity.
Qed.

Lemma fold_accounting (events : list Event) :
  forall (c : Config) (n : nat),
    (timers (state c) <= n)%nat ->
    requestsSinceGC (state c) = Z.of_nat (n - timers (state c)) mod 3 ->
    (timers (state (fold_left step events c)) <= n + scheduled events)%nat
    /\ requestsSinceGC (state (fold_left step events c))
       = Z.of_nat (n + scheduled events
                   - timers (state (fold_left step events c))) mod 3.
Proof.
  induction events as [|e events IH]; intros c n Hle Hcount.
  - simpl. rewrite Nat.add_0_r. auto.
  - destruct (step_accounting c e n Hle Hcount) as [H1 H2].
    destruct (IH (step c e) (n + schedules e)%nat H1 H2) as [H3 H4].
    simpl. rewrite Nat.add_assoc. auto.
Qed.

(** X17. In every run the sweeps that have been called are those that the
    requests scheduled and that are not waiting any more, and the counter
    is their number modulo 3: [gc] scans the store on every third call
    and on no other. *)
Theorem gc_calls_accounting (events : list Event) :
  (timers (state (run events)) <= scheduled events)%nat
  /\ requestsSinceGC (state (run events))
     = Z.of_nat (scheduled events - timers (state (run events))) mod 3.
Proof.
  destruct (fold_accounting events start O) as [H1 H2];
    [simpl; lia | reflexivity |].
  exact (conj H1 H2).
Qed.

(** ** From a request to its follow-up *)

(** X18. A request for a URL whose workflow ends with status 300 leaves its
    session in the store under the identifier the session was given, in
    place of any session stored there before; a follow-up with that
    identifier then resumes it, with the identifier and the start time of
    the first request and the context and the data of the follow-up, and
    takes it out of the store. *)
Theorem issued_session_resumes (st : State) (r1 r2 : Request)
    (url k : string) :
  content_ok r1 = true -> body r1 = Text url -> match_http url = true ->
  fresh_id r1 = k -> k <> EmptyString -> k <> "__proto__" ->
  content_ok r2 = true -> body r2 = Object (Some k) ->
  (handle r1 (Finished 300) st).2 = Ok 300
  /\ sessionsWaitingForSelection (handle r1 (Finished 300) st).1 !! k
     = Some (WebSession k (clock r1) (rctx r1) (rnext r1) (Text url))
  /\ (handle_enter r2 (handle r1 (Finished 300) st).1).2
     = Ok {| id := k; started := clock r1; ctx := rctx r2; next := rnext r2;
             data := Object (Some k) |}
  /\ sessionsWaitingForSelection
       (handle_enter r2 (handle r1 (Finished 300) st).1).1 !! k = None.
Proof.
  intros Hc1 Hb1 Hm Hfresh Hk Hproto Hc2 Hb2.
  assert (Hfirst : handle r1 (Finished 300) st
    = (set_property k (WebSession k (clock r1) (rctx r1) (rnext r1) (Text url))
         (with_timers (S (timers st)) st), Ok 300)).
  { unfold handle. rewrite (handle_enter_url r1 st url Hc1 Hb1 Hm), Hfresh.
    reflexivity. }
  assert (Hstored : sessionsWaitingForSelection (handle r1 (Finished 300) st).1 !! k
    = Some (WebSession k (clock r1) (rctx r1) (rnext r1) (Text url))).
  { rewrite Hfirst. unfold set_property. simpl.
    rewrite (proj2 (String.eqb_neq _ _) Hproto). simpl. apply lookup_insert_eq. }
  rewrite (handle_enter_stored r2 _ k _ Hc2 Hb2 Hk Hstored).
  split; [by rewrite Hfirst|]. split; [exact Hstored|].
  split; [by rewrite Hb2|]. simpl. apply lookup_delete_eq.
Qed.

Lemma gc_inherited (now : Z) (st : State) (k : string) :
  inherited (gc now st) k = inherited st k.
Proof.
  unfold gc. destruct (requestsSinceGC st + 1 =? 3); reflexivity.
Qed.

(** X19. A session that a sweep removes cannot be resumed any more: the
    follow-up with its identifier fails with 400, Session not found. A
    session that the same sweep keeps is resumed as before. *)
Theorem swept_session_cannot_resume (now : Z) (st : State) (k : string)
    (s : Session) (r : Request) :
  requestsSinceGC st + 1 = 3 ->
  sessionsWaitingForSelection st !! k = Some s ->
  k <> EmptyString -> inherited st k = false ->
  content_ok r = true -> body r = Object (Some k) ->
  (started s <> 0 -> now - started s >= SELECT_TIMEOUT * 1000 ->
     (handle_enter r (gc now st)).2 = Err (HttpError 400 "Session not found"))
  /\ (started s = 0 \/ now - started s < SELECT_TIMEOUT * 1000 ->
      (handle_enter r (gc now st)).2
      = Ok {| id := id s; started := started s;
              ctx := rctx r; next := rnext r; data := body r |}).
Proof.
  intros Hdue Hs Hk Hi Hc Hb. split.
  - intros Hset Hage.
    rewrite (handle_enter_unknown r (gc now st) k Hc Hb Hk); [reflexivity| |].
    + destruct (sessionsWaitingForSelection (gc now st) !! k) as [s'|] eqn:Hl;
        [|reflexivity].
      apply gc_due_lookup in Hl as [Hs' Hexp]; [|exact Hdue].
      rewrite Hs in Hs'. injection Hs' as <-.
      apply expired_false in Hexp. lia.
    + by rewrite gc_inherited.
  - intros Hkeep.
    rewrite (handle_enter_stored r (gc now st) k s Hc Hb Hk); [reflexivity|].
    apply gc_due_lookup; [exact Hdue|]. split; [exact Hs | by apply expired_false].
Qed.

(** ** Names the store inherits *)

Lemma step_no_proto (c : Config) (e : Event) :
  sessionsWaitingForSelection (state c) !! "__proto__" = None ->
  sessionsWaitingForSelection (state (step c e)) !! "__proto__" = None.
Proof.
  intros H. destruct e as [r | n o | now]; simpl.
  - pose proof (handle_enter_sessions r (state c)) as Hs.
    destruct (handle_enter r (state c)) as [st [session | err]]; simpl in Hs |- *;
      (destruct Hs as [-> | [k ->]]; [exact H|]);
      (destruct (decide (k = "__proto__")) as [-> | Hne];
       [apply lookup_delete_eq | by rewrite lookup_delete_ne]).
  - destruct (awaiting c !! n) as [session|]; [|exact H]. simpl.
    destruct o as [status|]; [|exact H]. simpl.
    destruct (status =? 300); [|exact H]. unfold set_property.
    destruct (String.eqb (id session) "__proto__") eqn:Hid; [exact H|].
    apply String.eqb_neq in Hid. simpl. by rewrite lookup_insert_ne.
  - destruct (timers (state c)) as [|m]; [exact H|]. simpl. unfold gc. simpl.
    destruct (requestsSinceGC (state c) + 1 =? 3); simpl; [|exact H].
    apply map_lookup_filter_None. left. exact H.
Qed.

Lemma run_no_proto (events : list Event) :
  forall c,
    sessionsWaitingForSelection (state c) !! "__proto__" = None ->
    sessionsWaitingForSelection (state (fold_left step events c)) !! "__proto__"
    = None.
Proof.
  induction events as [|e events IH]; intros c H; [exact H|].
  simpl. apply IH. by apply step_no_proto.
Qed.

Lemma handle_enter_proto (r : Request) (st : State) :
  content_ok r = true -> body r = Object (Some "__proto__") ->
  sessionsWaitingForSelection st !! "__proto__" = None ->
  handle_enter r st
  = (pollute (delete_property "__proto__" (with_timers (S (timers st)) st)),
     Err (TypeError "session.handleURL is not a function")).
Proof.
  intros Hc Hb Hs. unfold handle_enter, bind, ctx_assert, setTimeout_gc.
  rewrite Hc, Hb. unfold when, modify, gets, ret, get_property. simpl.
  rewrite Hs. reflexivity.
Qed.

(** X20. The store never holds a session under the name [__proto__], so
    at any time a follow-up that names it takes [Object.prototype] itself
    for its session: the handler raises a TypeError and the stored
    sessions stay as they are, but its three assignments have landed on
    the prototype. From then on a follow-up that names [ctx], [next] or
    [data], answered with 400 Session not found before when no session is
    stored under that name, raises a TypeError as well. *)
Theorem proto_follow_up_pollutes (events : list Event) (r r' : Request)
    (k : string) :
  content_ok r = true -> body r = Object (Some "__proto__") ->
  content_ok r' = true -> body r' = Object (Some k) ->
  k ∈ assigned_on_resume ->
  sessionsWaitingForSelection (state (run events)) !! k = None ->
  (handle_enter r (state (run events))).2
  = Err (TypeError "session.handleURL is not a function")
  /\ sessionsWaitingForSelection (handle_enter r (state (run events))).1
     = sessionsWaitingForSelection (state (run events))
  /\ (polluted (state (run events)) = false ->
      (handle_enter r' (state (run events))).2
      = Err (HttpError 400 "Session not found"))
  /\ (handle_enter r' (handle_enter r (state (run events))).1).2
     = Err (TypeError "session.handleURL is not a function").
Proof.
  intros Hc Hb Hc' Hb' Hk Hs.
  assert (Hproto : sessionsWaitingForSelection (state (run events)) !! "__proto__"
                   = None) by (by apply run_no_proto).
  assert (Hne : k <> EmptyString).
  { intros ->. revert Hk. unfold assigned_on_resume.
    rewrite !elem_of_cons, elem_of_nil. intros [?|[?|[?|[]]]]; discriminate. }
  assert (Hobj : bool_decide (k ∈ Object_prototype) = false).
  { revert Hk. unfold assigned_on_resume.
    rewrite !elem_of_cons, elem_of_nil. intros [->|[->|[->|[]]]]; reflexivity. }
  rewrite (handle_enter_proto r _ Hc Hb Hproto). simpl.
  split; [reflexivity|]. split; [by apply delete_id|]. split.
  - intros Hp. rewrite (handle_enter_unknown r' _ k Hc' Hb' Hne Hs);
      [reflexivity|]. unfold inherited. by rewrite Hobj, Hp.
  - apply (handle_enter_inherited r' _ k Hc' Hb' Hne).
    + simpl. by rewrite delete_id.
    + unfold inherited. simpl. rewrite Hobj. simpl. by apply bool_decide_eq_true.
Qed.

(** X18 at the first request of a fresh server and its follow-up. *)
Lemma issued_session_resumes_witness :
  (handle (Samples.url_request "abc" 1000) (Finished 300) initial).2 = Ok 300
  /\ (handle_enter (Samples.follow_up "abc")
        (handle (Samples.url_request "abc" 1000) (Finished 300) initial).1).2
     = Ok {| id := "abc"; started := 1000; ctx := 2; next := 2;
             data := Object (Some "abc") |}.
Proof.
  destruct (issued_session_resumes initial (Samples.url_request "abc" 1000)
              (Samples.follow_up "abc") "http://example.org/article" "abc")
    as (H1 & _ & H3 & _); try reflexivity; try discriminate.
  exact (conj H1 H3).
Defined.

(** X19 at the sample store: at time 20000 the session started at 1000 is
    swept and its follow-up is refused, the one started at 19000 is
    resumed. *)
Lemma swept_session_cannot_resume_witness :
  (handle_enter (Samples.follow_up "old") (gc 20000 Samples.due)).2
  = Err (HttpError 400 "Session not found")
  /\ (handle_enter (Samples.follow_up "young") (gc 20000 Samples.due)).2
     = Ok {| id := "young"; started := 19000; ctx := 2; next := 2;
             data := Object (Some "young") |}.
Proof.
  split.
  - apply (swept_session_cannot_resume 20000 Samples.due "old" Samples.old
             (Samples.follow_up "old"));
      [reflexivity | reflexivity | discriminate | reflexivity | reflexivity
      | reflexivity | discriminate | discriminate].
  - apply (swept_session_cannot_resume 20000 Samples.due "young"
             Samples.young (Samples.follow_up "young"));
      [reflexivity | reflexivity | discriminate | reflexivity | reflexivity
      | reflexivity | right; reflexivity].
Defined.

(** X20 at the start of the server. *)
Lemma proto_follow_up_pollutes_witness :
  (handle_enter (Samples.follow_up "data") initial).2
  = Err (HttpError 400 "Session not found")
  /\ (handle_enter (Samples.follow_up "data")
        (handle_enter (Samples.follow_up "__proto__") initial).1).2
     = Err (TypeError "session.handleURL is not a function").
Proof.
  destruct (proto_follow_up_pollutes [] (Samples.follow_up "__proto__")
              (Samples.follow_up "data") "data") as (_ & _ & H3 & H4);
    [reflexivity | reflexivity | reflexivity | reflexivity
    | do 2 apply list_elem_of_further; apply list_elem_of_here
    | reflexivity |].
  split; [apply H3; reflexivity | exact H4].
Defined.

End WebEndpointExtras.

(** * The masks of the logged text *)

Module MaskExtras.
Import HTTPProps.

Lemma append_cons (a : ascii) (s t : string) :
  String a s +:+ t = String a (s +:+ t).
Proof. reflexivity. Qed.

Lemma append_nil (t : string) : EmptyString +:+ t = t.
Proof. reflexivity. Qed.

Lemma prefix_cons (a b : ascii) (p s : string) :
  String.prefix (String a p) (String b s)
  = Ascii.eqb a b && String.prefix p s.
Proof.
  simpl. destruct (ascii_dec a b) as [->|Hne].
  - by rewrite Ascii.eqb_refl.
  - by rewrite (proj2 (Ascii.eqb_neq a b) Hne).
Qed.

Lemma contains_cons (p : string) (a : ascii) (s : string) :
  contains p (String a s) = String.prefix p (String a s) || contains p s.
Proof. reflexivity. Qed.

Lemma contains_char (c a : ascii) (s : string) :
  contains (String c EmptyString) (String a s)
  = Ascii.eqb c a || contains (String c EmptyString) s.
Proof.
  rewrite contains_cons, prefix_cons. destruct s; by rewrite andb_true_r.
Qed.

Lemma strip_prefix_prefix (p s t : string) :
  strip_prefix p s = Some t -> String.prefix p s = true.
Proof.
  revert s. induction p as [|a p IH]; intros [|b s] H; try reflexivity.
  - discriminate.
  - rewrite prefix_cons. simpl in H.
    destruct (Ascii.eqb a b); [|discriminate]. by rewrite (IH s H).
Qed.

Lemma strip_prefix_app (p s : string) : strip_prefix p (p +:+ s) = Some s.
Proof.
  induction p as [|a p IH]; [by destruct s|].
  rewrite append_cons. simpl. by rewrite Ascii.eqb_refl.
Qed.

(** A pattern whose first character does not occur again in it cannot
    match across the place where it occurs next. *)
Lemma strip_prefix_overlap (a0 : ascii) (z : string) :
  forall (q pre t : string),
    strip_prefix q (pre +:+ String a0 z) = Some t ->
    String.prefix q pre = true
    \/ contains (String a0 EmptyString) q = true.
Proof.
  induction q as [|b q IH]; intros pre t H.
  - left. by destruct pre.
  - destruct pre as [|c pre].
    + right. rewrite append_nil in H. simpl in H.
      destruct (Ascii.eqb b a0) eqn:Hb; [|discriminate].
      rewrite contains_char, Ascii.eqb_sym, Hb. reflexivity.
    + rewrite append_cons in H. simpl in H.
      destruct (Ascii.eqb b c) eqn:Hb; [|discriminate].
      destruct (IH pre t H) as [Hp | Hc].
      * left. by rewrite prefix_cons, Hb, Hp.
      * right. rewrite contains_char, Hc. apply orb_true_r.
Qed.

Lemma skip_run_stops (c : ascii) (s rest : string) :
  contains (String c EmptyString) s = false ->
  skip_run c (s +:+ String c rest) = String c rest
  /\ skip_run c s = EmptyString.
Proof.
  induction s as [|a s IH]; intros H.
  - rewrite append_nil. simpl. by rewrite Ascii.eqb_refl.
  - rewrite contains_char in H. apply orb_false_elim in H as [Ha Hs].
    rewrite append_cons. simpl. rewrite Ascii.eqb_sym, Ha. by apply IH.
Qed.

Lemma replace_first_cons (p : string) (c : ascii) (r : string) (a : ascii)
    (rest : string) :
  replace_first p c r (String a rest)
  = match strip_prefix p (String a rest) with
    | Some (String b tail) =>
        if Ascii.eqb b c then String a (replace_first p c r rest)
        else r +:+ skip_run c tail
    | _ => String a (replace_first p c r rest)
    end.
Proof. reflexivity. Qed.

Lemma replace_first_absent (p : string) (c : ascii) (r s : string) :
  contains p s = false -> replace_first p c r s = s.
Proof.
  induction s as [|a s IH]; intros H; [reflexivity|].
  rewrite contains_cons in H. apply orb_false_elim in H as [Hp Hs].
  rewrite replace_first_cons.
  destruct (strip_prefix p (String a s)) as [t|] eqn:Ht.
  - apply strip_prefix_prefix in Ht. congruence.
  - by rewrite (IH Hs).
Qed.

Lemma replace_first_match (a0 : ascii) (p' : string) (c : ascii)
    (r pre secret tail : string) :
  contains (String a0 EmptyString) p' = false ->
  contains (String a0 p') pre = false ->
  secret <> EmptyString ->
  contains (String c EmptyString) secret = false ->
  skip_run c (secret +:+ tail) = tail ->
  replace_first (String a0 p') c r (pre +:+ String a0 p' +:+ secret +:+ tail)
  = pre +:+ r +:+ tail.
Proof.
  intros Hp' Hpre Hne Hsec Hskip.
  destruct secret as [|b secret]; [done|]. clear Hne.
  rewrite contains_char in Hsec. apply orb_false_elim in Hsec as [Hb Hsec].
  induction pre as [|a pre IH].
  - rewrite !append_nil.
    pose proof (strip_prefix_app (String a0 p') (String b secret +:+ tail)) as Hs.
    rewrite !append_cons in Hs |- *. rewrite replace_first_cons, Hs.
    rewrite Ascii.eqb_sym, Hb. f_equal.
    rewrite append_cons in Hskip. simpl in Hskip.
    by rewrite Ascii.eqb_sym, Hb in Hskip.
  - rewrite contains_cons in Hpre. apply orb_false_elim in Hpre as [Hpa Hpre].
    rewrite prefix_cons in Hpa.
    assert (Hnone : strip_prefix (String a0 p')
              (String a (pre +:+ String a0 (p' +:+ String b secret +:+ tail)))
            = None).
    { simpl. destruct (Ascii.eqb a0 a); [|reflexivity]. simpl in Hpa.
      destruct (strip_prefix p' _) as [t|] eqn:Ht; [|reflexivity].
      apply strip_prefix_overlap in Ht as [H | H]; congruence. }
    rewrite !append_cons. rewrite !append_cons in Hnone.
    rewrite replace_first_cons, Hnone.
    f_equal. rewrite <- (IH Hpre). by rewrite !append_cons.
Qed.

(** The text after the run of characters that is replaced. *)
Lemma skip_run_end (c : ascii) (s : string) :
  contains (String c EmptyString) s = false ->
  skip_run c (s +:+ EmptyString) = EmptyString.
Proof.
  induction s as [|a s IH]; intros H; [reflexivity|].
  rewrite contains_char in H. apply orb_false_elim in H as [Ha Hs].
  rewrite append_cons. simpl. rewrite Ascii.eqb_sym, Ha. by apply IH.
Qed.

Lemma append_assoc (s t u : string) : (s +:+ t) +:+ u = s +:+ t +:+ u.
Proof.
  induction s as [|a s IH]; [reflexivity|]. by rewrite !append_cons, IH.
Qed.

(** X21. The second replacement, of the form-encoded credential: in a
    text whose first [password=] is followed by a value without an
    ampersand, the value is replaced by eight asterisks, whether the text
    ends there or goes on with an ampersand; the text before it and all
    the text after it, a later credential included, stay as they are. *)
Theorem mask_form_password_hides (pre secret rest : string) :
  contains "password=" pre = false ->
  secret <> EmptyString ->
  contains "&" secret = false ->
  mask_form_password (pre +:+ "password=" +:+ secret)
  = pre +:+ "password=********"
  /\ mask_form_password (pre +:+ "password=" +:+ secret +:+ "&" +:+ rest)
     = pre +:+ "password=********" +:+ "&" +:+ rest.
Proof.
  intros Hpre Hne Hsec. unfold mask_form_password. split.
  - pose proof (replace_first_match "p" "assword=" "&" "password=********"
                  pre secret EmptyString eq_refl Hpre Hne Hsec
                  (skip_run_end _ _ Hsec)) as H.
    by rewrite !append_empty_r in H.
  - apply (replace_first_match "p" "assword=" "&" "password=********"
             pre secret ("&" +:+ rest) eq_refl Hpre Hne Hsec).
    apply skip_run_stops. exact Hsec.
Qed.

(** X22. The first replacement, of the JSON credential: in a text whose
    first key [password] with a string value has a value without a double
    quote, the value is replaced by eight asterisks up to the closing
    quote; the text before it and all the text from the closing quote on
    stay as they are. *)
Theorem mask_json_password_hides (pre secret rest : string) :
  contains password_key pre = false ->
  secret <> EmptyString ->
  contains (String quote EmptyString) secret = false ->
  mask_json_password (pre +:+ password_key +:+ secret +:+ String quote rest)
  = pre +:+ password_key +:+ "********" +:+ String quote rest.
Proof.
  intros Hpre Hne Hsec. unfold mask_json_password.
  rewrite <- (append_assoc password_key "********" (String quote rest)).
  apply (replace_first_match "p"
           ("assword" +:+ String quote (":" +:+ String quote EmptyString))
           quote (password_key +:+ "********") pre secret (String quote rest)
           eq_refl Hpre Hne Hsec).
  apply skip_run_stops. exact Hsec.
Qed.

(** X23. A text in which neither form of the credential occurs passes
    both replacements unchanged. *)
Theorem masks_keep_other_text (s : string) :
  contains password_key s = false ->
  contains "password=" s = false ->
  mask_form_password (mask_json_password s) = s.
Proof.
  intros Hjson Hform. unfold mask_json_password, mask_form_password.
  rewrite (replace_first_absent _ _ _ s Hjson).
  exact (replace_first_absent _ _ _ s Hform).
Qed.

(** X21 for a login form: the password is hidden, the fields around it
    are kept. *)
Lemma mask_form_password_hides_witness :
  mask_form_password "user=bob&password=hunter2&lang=en"
  = "user=bob&password=********&lang=en".
Proof.
  apply (mask_form_password_hides "user=bob&" "hunter2" "lang=en");
    [reflexivity | discriminate | reflexivity].
Defined.

(** X22 for a JSON object with the one key [password]. *)
Lemma mask_json_password_hides_witness :
  mask_json_password
    ("{" +:+ String quote password_key +:+ "hunter2" +:+ String quote "}")
  = "{" +:+ String quote password_key +:+ "********" +:+ String quote "}".
Proof.
  apply (mask_json_password_hides ("{" +:+ String quote EmptyString)
           "hunter2" "}"); [reflexivity | discriminate | reflexivity].
Defined.

(** X23 for a form without a password. *)
Lemma masks_keep_other_text_witness :
  mask_form_password (mask_json_password "user=bob&lang=en")
  = "user=bob&lang=en".
Proof.
  apply (masks_keep_other_text "user=bob&lang=en"); reflexivity.
Defined.

End MaskExtras.
